(** * Browser clients of the conversation simulator

    A shallow embedding of the three client scripts of the repository:

    - [Script]  : [static/script.js], the call simulator with the live
                  dashboard (events [call_start], [typing], [message],
                  [dashboard_update], [call_end]);
    - [Part000] : the first chat client (events [session_start], [typing],
                  [message], [session_end]);
    - [Part001] : the second chat client, the first one plus the insights
                  modal.

    The scripts are event handlers over the page.  A handler is embedded as
    a function from the page state (the DOM elements and the script's
    global variables it reads or writes) to the page state.  JSON numbers
    are integers ([Z]); an absent JSON field is [None]. *)

From Stdlib Require Import ZArith String Ascii List Lia.
From Stdlib Require Import DecimalString DecimalPos DecimalZ.
From stdpp Require Import base strings list gmap.
Import ListNotations.

Local Open Scope string_scope.
Local Open Scope list_scope.

(** ** The fragment of JavaScript the scripts rely on *)

Module JS.

(** [`${n}`] for an integer-valued number. *)
Definition show (n : Z) : string := NilZero.string_of_int (Z.to_int n).

(** [x || d] on an optional number: [undefined] and [0] are falsy. *)
Definition or_num (x : option Z) (d : Z) : Z :=
  match x with
  | Some v => if Z.eqb v 0 then d else v
  | None => d
  end.

(** [x || d] on an optional string: [undefined] and [''] are falsy. *)
Definition or_str (x : option string) (d : string) : string :=
  match x with
  | Some "" => d
  | Some v => v
  | None => d
  end.

(** Truthiness of an optional number, as in [if (data.turn)]. *)
Definition truthy_num (x : option Z) : bool :=
  match x with
  | Some v => negb (Z.eqb v 0)
  | None => false
  end.

(** [a >= b] on numbers. *)
Definition ge (a b : Z) : bool := Z.leb b a.

(** Reading a property of an object literal: an own property, a property
    inherited from [Object.prototype], or [undefined]. *)
Inductive prop : Type :=
| Own (v : string)
| Proto (name : string)
| Undefined.

Definition object_prototype : list string :=
  [ "constructor"; "__defineGetter__"; "__defineSetter__"; "hasOwnProperty";
    "__lookupGetter__"; "__lookupSetter__"; "isPrototypeOf";
    "propertyIsEnumerable"; "toString"; "valueOf"; "__proto__";
    "toLocaleString" ].

Definition get (o : gmap string string) (k : string) : prop :=
  match o !! k with
  | Some v => Own v
  | None => if bool_decide (k ∈ object_prototype) then Proto k else Undefined
  end.

(** [p || d] on a property read: [undefined] and [''] are falsy, the
    members of [Object.prototype] are functions or objects, hence truthy. *)
Definition or_prop (p : prop) (d : string) : prop :=
  match p with
  | Own "" => Own d
  | Own v => Own v
  | Proto n => Proto n
  | Undefined => Own d
  end.

(** What a template literal [`${p}`] shows: text, or the
    implementation-defined text of a member of [Object.prototype]. *)
Inductive shown : Type :=
| Text (s : string)
| Native (name : string).

Definition template (p : prop) : shown :=
  match p with
  | Own v => Text v
  | Proto n => Native n
  | Undefined => Text "undefined"
  end.

(** [String.prototype.toLowerCase] on a UTF-8 encoded string.  Latin
    capitals become small letters and the Kelvin sign U+212A (bytes 226,
    132, 170) becomes [k]; these are the only characters whose lower case
    is an ASCII letter.  Every other byte is kept: the lower case of any
    other non-ASCII character is again non-ASCII. *)
Definition is_upper (c : ascii) : bool :=
  (65 <=? nat_of_ascii c)%nat && (nat_of_ascii c <=? 90)%nat.

Definition lower (c : ascii) : ascii :=
  if is_upper c then ascii_of_nat (nat_of_ascii c + 32) else c.

Definition kelvin : string :=
  String (ascii_of_nat 226) (String (ascii_of_nat 132) (String (ascii_of_nat 170) "")).

Fixpoint toLowerCase (s : string) : string :=
  match s with
  | "" => ""
  | String c r =>
      match r with
      | String c1 (String c2 r') =>
          if (nat_of_ascii c =? 226)%nat && (nat_of_ascii c1 =? 132)%nat
             && (nat_of_ascii c2 =? 170)%nat
          then String "k" (toLowerCase r')
          else String (lower c) (toLowerCase r)
      | _ => String (lower c) (toLowerCase r)
      end
  end.

(** [String.prototype.toUpperCase], exact on ASCII text. *)
Definition is_lower (c : ascii) : bool :=
  (97 <=? nat_of_ascii c)%nat && (nat_of_ascii c <=? 122)%nat.

Definition upper (c : ascii) : ascii :=
  if is_lower c then ascii_of_nat (nat_of_ascii c - 32) else c.

Fixpoint toUpperCase (s : string) : string :=
  match s with
  | "" => ""
  | String c r => String (upper c) (toUpperCase r)
  end.

(** A string of small Latin letters only. *)
Fixpoint all_lower (s : string) : bool :=
  match s with
  | "" => true
  | String c r => is_lower c && all_lower r
  end.

(** [arr.includes(x)] where [x] may be [undefined]. *)
Definition includes (arr : list string) (x : option string) : bool :=
  match x with
  | Some v => bool_decide (v ∈ arr)
  | None => false
  end.

(** [s.includes(t)] on strings. *)
Fixpoint str_includes (s t : string) : bool :=
  String.prefix t s ||
  match s with
  | "" => false
  | String _ r => str_includes r t
  end.

End JS.

(** ** The part of the document the scripts' lookups see

    [document.getElementById('typing-indicator')] finds the first element,
    in tree order, that has the id; [querySelector('.welcome-message')]
    the first element below the chat that has the class.  The page is in
    standards mode (ids and classes are compared exactly).  The lookups
    are followed through the chat, where the handlers of the WebSocket
    events write: the rest of the document (the dashboard, the modals) is
    taken to hold no element with the id [typing-indicator]. *)

Module DOM.

(** An element, as far as the two lookups go: its id ([""] for none), its
    class attribute and its children. *)
Inductive dom : Type := el (id class : string) (kids : list dom).

Definition id_of (d : dom) : string := match d with el i _ _ => i end.
Definition class_of (d : dom) : string := match d with el _ c _ => c end.

(** The tokens of a class attribute: it is split at ASCII white space. *)
Definition is_space (c : ascii) : bool :=
  match nat_of_ascii c with
  | 9 | 10 | 12 | 13 | 32 => true
  | _ => false
  end.

Fixpoint tokens_from (cur s : string) : list string :=
  match s with
  | "" => match cur with "" => [] | _ => [cur] end
  | String c r =>
      if is_space c
      then match cur with "" => tokens_from "" r | _ => cur :: tokens_from "" r end
      else tokens_from (cur +:+ String c "") r
  end.

Definition tokens (class : string) : list string := tokens_from "" class.

Definition has_class (class name : string) : bool :=
  bool_decide (name ∈ tokens class).

Inductive selector : Type :=
| by_id (id : string)
| by_class (name : string).

Definition matches (q : selector) (id class : string) : bool :=
  match q with
  | by_id i => String.eqb id i
  | by_class name => has_class class name
  end.



(** [strip q d]: the element [d] with the first element below it, in tree
    order, that matches [q] removed; [None] when none matches. *)
Fixpoint strip (q : selector) (d : dom) : option dom :=
  match d with
  | el i c kids =>
      option_map (el i c)
        ((fix go (l : list dom) : option (list dom) :=
            match l with
            | [] => None
            | k :: r =>
                if matches q (id_of k) (class_of k) then Some r
                else match strip q k with
                     | Some k' => Some (k' :: r)
                     | None => option_map (cons k) (go r)
                     end
            end) kids)
  end.

Definition strip_forest (q : selector) (l : list dom) : option (list dom) :=
  match strip q (el "" "" l) with
  | Some (el _ _ l') => Some l'
  | None => None
  end.

(** The children of a container, each seen as an element with id, class
    and children of its own: [remove_in] takes away the first element, in
    tree order, that matches [q], be it a child or an element inside one;
    this is [lookup(...)?.remove()]. *)
Section Children.
Context {N : Type}.
Variable own : N -> string * string.          (* id and class of a child *)
Variable inner : N -> list dom.               (* what it holds *)
Variable with_inner : N -> list dom -> N.

Fixpoint remove_in (q : selector) (l : list N) : list N :=
  match l with
  | [] => []
  | n :: r =>
      if matches q (fst (own n)) (snd (own n)) then r
      else match strip_forest q (inner n) with
           | Some i => with_inner n i :: r
           | None => n :: remove_in q r
           end
  end.

End Children.

End DOM.

(** ** [static/script.js]: the call simulator with the live dashboard *)

Module Script.

(** *** Page elements *)

(** The properties of a DOM element that the script assigns. *)
Record elem : Type := {
  textContent : string;
  className : string;
  width : string;      (* style.width *)
  display : string     (* style.display *)
}.

Definition set_text (v : string) (e : elem) : elem :=
  {| textContent := v; className := className e; width := width e; display := display e |}.
Definition set_class (v : string) (e : elem) : elem :=
  {| textContent := textContent e; className := v; width := width e; display := display e |}.
Definition set_width (v : string) (e : elem) : elem :=
  {| textContent := textContent e; className := className e; width := v; display := display e |}.
Definition set_display (v : string) (e : elem) : elem :=
  {| textContent := textContent e; className := className e; width := width e; display := v |}.

(** [el.style.width = `${n}%`] for a number [n].  The browser keeps a
    declaration only when its value is valid; a negative percentage is not
    a valid width, and the assignment then leaves the style as it was. *)
Definition set_width_percent (n : Z) (e : elem) : elem :=
  if (0 <=? n)%Z then set_width (JS.show n +:+ "%") e else e.

(** The dashboard elements bound at the top of the script, and the set of
    [.motivation-item] elements (named by the fill they hold) that carry
    the class [dominant]. *)
Record dashboard : Type := {
  fraudRiskBar : elem;  fraudRiskValue : elem;
  headBar : elem;       headValue : elem;
  heartBar : elem;      heartValue : elem;
  handBar : elem;       handValue : elem;
  dominant : list string;
  reasoningText : elem;
  satisfactionBar : elem; satisfactionValue : elem;
  trustBar : elem;        trustValue : elem;
  urgencyBar : elem;      urgencyValue : elem;
  frustrationBar : elem;  frustrationValue : elem;
  likelihoodBar : elem;   likelihoodValue : elem;
  toneValue : elem;
  frustrationWarning : elem
}.

(** The children of [#chat-messages].  A divider and an outcome card are
    filled with [innerHTML]; they are kept as the data interpolated into
    the markup together with [inner], the elements the browser's parser
    builds from it.  The other children are built element by element, with
    fixed classes ([avatar], [avatar-img], [bubble], ...) and no id
    inside. *)
Inductive avatar : Type :=
| avatar_img (style : string)      (* <img src="/avatars/${style}.png"> *)
| avatar_letter (letter : string).

Record card : Type := {
  card_class : string;            (* `outcome-card ${data.outcome}` *)
  outcome_emoji : JS.shown;
  outcome_title : string;
  points_class : string;
  points_text : string;
  guess_badge : string;
  action_text : string;
  turns_text : string
}.

Inductive node : Type :=
| welcome_message
| call_divider (call : string) (style display_name : string) (warmup : bool)
    (inner : list DOM.dom)
| system_message (text : string)
| fraud_alert (text : string)
| message_bubble (class : string) (av : avatar) (text : string)
| typing_indicator (class : string) (av : avatar)
| outcome_card (c : card) (inner : list DOM.dom).

(** *** Server events *)

Record Agent : Type := { style : string; name : string }.
Record AgentInfo : Type := { display_name : string }.

(** An event whose fields are written into markup comes with what the
    browser's parser builds from that markup: [divider_html] is the
    children of the call divider after [divider.innerHTML = ...]. *)
Record CallStart : Type := {
  call_id : Z;
  agent : Agent;
  agent_info : AgentInfo;
  warmup_mode : bool;
  divider_html : list DOM.dom
}.

Record Motivation : Type := { head : Z; heart : Z; hand : Z }.

Record Confidence : Type := {
  fraud_likelihood : option Z;
  motivation_guess : option Motivation;
  reasoning : option string
}.

Record Sentiment : Type := {
  satisfaction : Z;
  trust : Z;
  urgency : Z;
  frustration : Z;
  likelihood_to_convert : Z;
  emotional_tone : option string
}.

Record DashboardUpdate : Type := {
  confidence : Confidence;
  sentiment : Sentiment;
  turn : option Z
}.

(** The fields of a [call_end] event read by the card's header and by the
    badge, action and turns of the agent-performance section; the rest of
    the card (customer profile, the guess itself, pitch, flag reason,
    learning, transcript) copies further fields of the event. *)
Record CallEnd : Type := {
  outcome : string;
  outcome_description : string;
  points : Z;
  motivation_correct : bool;
  close_attempted : bool;
  flag_used : bool;
  customer_bounced : bool;
  turns_used : Z;
  card_html : list DOM.dom           (* the children of the card after
                                        [card.innerHTML = ...] *)
}.

Inductive event : Type :=
| call_start (data : CallStart)
| typing (speaker : string)
| message (speaker text : string) (is_bounce is_end : bool) (turn : option Z)
| dashboard_update (data : DashboardUpdate)
| call_end (data : CallEnd)
| unknown (type : string).

(** *** Page state *)

Inductive readyState : Type := CONNECTING | OPEN | CLOSING | CLOSED.

(** The only frame the client sends: [{ type: 'new_call' }]. *)
Inductive frame : Type := new_call.

Record page : Type := {
  ws : option readyState;            (* [let ws = null] *)
  currentFraudRisk : Z;
  currentAgentStyle : option string;
  startButton_disabled : bool;
  turnCount : string;
  agentIcon_text : JS.shown;
  agentIcon_class : string;
  agentName : string;
  agentStyle : string;
  chatMessages : list node;
  dash : dashboard;
  sent : list frame                  (* frames passed to [ws.send] *)
}.

Definition with_ws (v : option readyState) (p : page) : page :=
  {| ws := v; currentFraudRisk := currentFraudRisk p;
     currentAgentStyle := currentAgentStyle p;
     startButton_disabled := startButton_disabled p; turnCount := turnCount p;
     agentIcon_text := agentIcon_text p; agentIcon_class := agentIcon_class p;
     agentName := agentName p; agentStyle := agentStyle p;
     chatMessages := chatMessages p; dash := dash p; sent := sent p |}.

Definition with_currentFraudRisk (v : Z) (p : page) : page :=
  {| ws := ws p; currentFraudRisk := v;
     currentAgentStyle := currentAgentStyle p;
     startButton_disabled := startButton_disabled p; turnCount := turnCount p;
     agentIcon_text := agentIcon_text p; agentIcon_class := agentIcon_class p;
     agentName := agentName p; agentStyle := agentStyle p;
     chatMessages := chatMessages p; dash := dash p; sent := sent p |}.

Definition with_startButton_disabled (v : bool) (p : page) : page :=
  {| ws := ws p; currentFraudRisk := currentFraudRisk p;
     currentAgentStyle := currentAgentStyle p;
     startButton_disabled := v; turnCount := turnCount p;
     agentIcon_text := agentIcon_text p; agentIcon_class := agentIcon_class p;
     agentName := agentName p; agentStyle := agentStyle p;
     chatMessages := chatMessages p; dash := dash p; sent := sent p |}.

Definition with_turnCount (v : string) (p : page) : page :=
  {| ws := ws p; currentFraudRisk := currentFraudRisk p;
     currentAgentStyle := currentAgentStyle p;
     startButton_disabled := startButton_disabled p; turnCount := v;
     agentIcon_text := agentIcon_text p; agentIcon_class := agentIcon_class p;
     agentName := agentName p; agentStyle := agentStyle p;
     chatMessages := chatMessages p; dash := dash p; sent := sent p |}.

Definition with_badge (a : Agent) (i : AgentInfo) (icon : JS.shown) (p : page) : page :=
  {| ws := ws p; currentFraudRisk := currentFraudRisk p;
     currentAgentStyle := Some (style a);
     startButton_disabled := startButton_disabled p; turnCount := turnCount p;
     agentIcon_text := icon; agentIcon_class := "agent-icon " +:+ style a;
     agentName := name a; agentStyle := display_name i;
     chatMessages := chatMessages p; dash := dash p; sent := sent p |}.

Definition with_chatMessages (v : list node) (p : page) : page :=
  {| ws := ws p; currentFraudRisk := currentFraudRisk p;
     currentAgentStyle := currentAgentStyle p;
     startButton_disabled := startButton_disabled p; turnCount := turnCount p;
     agentIcon_text := agentIcon_text p; agentIcon_class := agentIcon_class p;
     agentName := agentName p; agentStyle := agentStyle p;
     chatMessages := v; dash := dash p; sent := sent p |}.

Definition with_dash (v : dashboard) (p : page) : page :=
  {| ws := ws p; currentFraudRisk := currentFraudRisk p;
     currentAgentStyle := currentAgentStyle p;
     startButton_disabled := startButton_disabled p; turnCount := turnCount p;
     agentIcon_text := agentIcon_text p; agentIcon_class := agentIcon_class p;
     agentName := agentName p; agentStyle := agentStyle p;
     chatMessages := chatMessages p; dash := v; sent := sent p |}.

Definition with_sent (v : list frame) (p : page) : page :=
  {| ws := ws p; currentFraudRisk := currentFraudRisk p;
     currentAgentStyle := currentAgentStyle p;
     startButton_disabled := startButton_disabled p; turnCount := turnCount p;
     agentIcon_text := agentIcon_text p; agentIcon_class := agentIcon_class p;
     agentName := agentName p; agentStyle := agentStyle p;
     chatMessages := chatMessages p; dash := dash p; sent := v |}.

Definition appendChild (n : node) (p : page) : page :=
  with_chatMessages (chatMessages p ++ [n]) p.

(** Children told apart by how the script made them, and a list without
    the first child of a kind.  These describe the chat; the scripts'
    own lookups go by id and class, see [remove_element]. *)
Fixpoint remove_first (f : node -> bool) (l : list node) : list node :=
  match l with
  | [] => []
  | n :: r => if f n then r else n :: remove_first f r
  end.

Definition is_typing_indicator (n : node) : bool :=
  match n with typing_indicator _ _ => true | _ => false end.

Definition is_welcome (n : node) : bool :=
  match n with welcome_message => true | _ => false end.

(** Id and class of a child of the chat, what it holds that the lookups
    can reach, and the child with that replaced. *)
Definition own (n : node) : string * string :=
  match n with
  | welcome_message => ("", "welcome-message")
  | call_divider _ _ _ _ _ => ("", "call-divider")
  | system_message _ => ("", "message system-message")
  | fraud_alert _ => ("", "message system-message")
  | message_bubble class _ _ => ("", class)
  | typing_indicator class _ => ("typing-indicator", class)
  | outcome_card c _ => ("", card_class c)
  end.

Definition inner_of (n : node) : list DOM.dom :=
  match n with
  | call_divider _ _ _ _ inner => inner
  | outcome_card _ inner => inner
  | _ => []
  end.

Definition with_inner (n : node) (inner : list DOM.dom) : node :=
  match n with
  | call_divider call style display_name warmup _ =>
      call_divider call style display_name warmup inner
  | outcome_card c _ => outcome_card c inner
  | _ => n
  end.

(** [lookup(...)?.remove()] over the chat. *)
Definition remove_element (q : DOM.selector) (l : list node) : list node :=
  DOM.remove_in own inner_of with_inner q l.

(** *** Handlers *)

Definition AGENT_ICONS : gmap string string :=
  {[ "closer" := "C"; "detective" := "D"; "empath" := "E";
     "robot" := "R"; "gambler" := "G" ]}.

Definition scrollToBottom (p : page) : page := p.

Definition level (value : Z) : string :=
  if JS.ge value 7 then "high" else if JS.ge value 4 then "medium" else "low".

Definition updateSentimentBar (metric : string) (value : Z) (els : elem * elem)
  : elem * elem :=
  let '(bar, valueEl) := els in
  (set_class
     (if String.eqb metric "frustration"
      then "sentiment-fill frustration-fill " +:+ level value
      else "sentiment-fill " +:+ metric +:+ "-fill " +:+ level value)
     (set_width_percent (value * 10) bar),
   set_text (JS.show value) valueEl).

Definition getDominantMotivation (motivation : Motivation) : string :=
  let '(Build_Motivation head heart hand) := motivation in
  if JS.ge head heart && JS.ge head hand then "head"
  else if JS.ge heart head && JS.ge heart hand then "heart"
  else "hand".

Definition positive : list string :=
  ["happy"; "interested"; "curious"; "engaged"; "warm"; "friendly"].
Definition negative : list string :=
  ["frustrated"; "annoyed"; "skeptical"; "impatient"; "hostile"; "angry"].

Definition getToneClass (tone : option string) : string :=
  if JS.includes positive (JS.toLowerCase <$> tone) then "positive"
  else if JS.includes negative (JS.toLowerCase <$> tone) then "negative"
  else "neutral".

Definition default_motivation : Motivation :=
  {| head := 33; heart := 34; hand := 33 |}.

Definition or_motivation (m : option Motivation) : Motivation :=
  match m with Some v => v | None => default_motivation end.

Definition percent (n : Z) : string := JS.show n +:+ "%".

(** The dashboard part of [updateDashboard]. *)
Definition renderDashboard (data : DashboardUpdate) (d : dashboard) : dashboard :=
  let confidence := confidence data in
  let sentiment := sentiment data in
  let fraudRisk := JS.or_num (fraud_likelihood confidence) 5 in
  let motivation := or_motivation (motivation_guess confidence) in
  let dominant := getDominantMotivation motivation in
  let satisfaction' :=
    updateSentimentBar "satisfaction" (satisfaction sentiment)
      (satisfactionBar d, satisfactionValue d) in
  let trust' :=
    updateSentimentBar "trust" (trust sentiment) (trustBar d, trustValue d) in
  let urgency' :=
    updateSentimentBar "urgency" (urgency sentiment) (urgencyBar d, urgencyValue d) in
  let frustration' :=
    updateSentimentBar "frustration" (frustration sentiment)
      (frustrationBar d, frustrationValue d) in
  let likelihood' :=
    updateSentimentBar "likelihood" (likelihood_to_convert sentiment)
      (likelihoodBar d, likelihoodValue d) in
  let displayedFrustration := JS.or_num (Some (frustration sentiment)) 0 in
  {| fraudRiskBar :=
       set_class ("metric-fill fraud-fill " +:+ level fraudRisk)
         (set_width_percent (fraudRisk * 10) (fraudRiskBar d));
     fraudRiskValue := set_text (JS.show fraudRisk +:+ "/10") (fraudRiskValue d);
     headBar := set_width_percent (head motivation) (headBar d);
     headValue := set_text (percent (head motivation)) (headValue d);
     heartBar := set_width_percent (heart motivation) (heartBar d);
     heartValue := set_text (percent (heart motivation)) (heartValue d);
     handBar := set_width_percent (hand motivation) (handBar d);
     handValue := set_text (percent (hand motivation)) (handValue d);
     dominant := [dominant];
     reasoningText :=
       set_text (JS.or_str (reasoning confidence) "Analyzing...") (reasoningText d);
     satisfactionBar := fst satisfaction'; satisfactionValue := snd satisfaction';
     trustBar := fst trust';               trustValue := snd trust';
     urgencyBar := fst urgency';           urgencyValue := snd urgency';
     frustrationBar := fst frustration';   frustrationValue := snd frustration';
     likelihoodBar := fst likelihood';     likelihoodValue := snd likelihood';
     toneValue :=
       set_class ("tone-value " +:+ getToneClass (emotional_tone sentiment))
         (set_text (JS.or_str (emotional_tone sentiment) "neutral") (toneValue d));
     frustrationWarning :=
       if JS.ge displayedFrustration 6
       then set_class
              ("frustration-warning " +:+
               (if JS.ge displayedFrustration 8 then "critical" else "warning"))
              (set_display "flex" (frustrationWarning d))
       else set_display "none" (frustrationWarning d) |}.

Definition updateDashboard (data : DashboardUpdate) (p : page) : page :=
  let p := if JS.truthy_num (turn data)
           then with_turnCount (JS.show (default 0%Z (turn data))) p else p in
  let fraudRisk := JS.or_num (fraud_likelihood (confidence data)) 5 in
  let p := with_currentFraudRisk fraudRisk p in
  with_dash (renderDashboard data (dash p)) p.

Definition resetDashboard (d : dashboard) : dashboard :=
  {| fraudRiskBar :=
       set_class "metric-fill fraud-fill low" (set_width "20%" (fraudRiskBar d));
     fraudRiskValue := set_text "2/10" (fraudRiskValue d);
     headBar := set_width "33%" (headBar d);
     headValue := set_text "33%" (headValue d);
     heartBar := set_width "33%" (heartBar d);
     heartValue := set_text "33%" (heartValue d);
     handBar := set_width "33%" (handBar d);
     handValue := set_text "33%" (handValue d);
     dominant := [];
     reasoningText :=
       set_text "Waiting for conversation to begin..." (reasoningText d);
     satisfactionBar := set_width "50%" (satisfactionBar d);
     satisfactionValue := set_text "5" (satisfactionValue d);
     trustBar := set_width "50%" (trustBar d);
     trustValue := set_text "5" (trustValue d);
     urgencyBar := set_width "50%" (urgencyBar d);
     urgencyValue := set_text "5" (urgencyValue d);
     frustrationBar := set_width "20%" (frustrationBar d);
     frustrationValue := set_text "2" (frustrationValue d);
     likelihoodBar := set_width "50%" (likelihoodBar d);
     likelihoodValue := set_text "5" (likelihoodValue d);
     toneValue := set_class "tone-value neutral" (set_text "neutral" (toneValue d));
     frustrationWarning := set_display "none" (frustrationWarning d) |}.

Definition hideTypingIndicator (p : page) : page :=
  with_chatMessages
    (remove_element (DOM.by_id "typing-indicator") (chatMessages p)) p.

Definition truthy_str (x : option string) : bool :=
  match x with
  | Some "" => false
  | Some _ => true
  | None => false
  end.

(** The avatar built by [addMessage] and [showTypingIndicator]. *)
Definition make_avatar (speaker : string) (p : page) : avatar :=
  if String.eqb speaker "agent" && truthy_str (currentAgentStyle p)
  then avatar_img (default "" (currentAgentStyle p))
  else avatar_letter (if String.eqb speaker "agent" then "A" else "C").

Definition showTypingIndicator (speaker : string) (p : page) : page :=
  let p := hideTypingIndicator p in
  scrollToBottom
    (appendChild (typing_indicator ("typing-indicator " +:+ speaker)
                    (make_avatar speaker p)) p).

Definition addMessage (speaker text : string) (isBounce isEnd : bool) (p : page)
  : page :=
  if String.eqb speaker "system" then
    let p := appendChild (system_message text) p in
    let p :=
      if JS.str_includes text "flagged for fraud" && JS.ge (currentFraudRisk p) 5
      then appendChild
             (fraud_alert ("Agent detected fraud risk: " +:+
                           JS.show (currentFraudRisk p) +:+ "/10")) p
      else p in
    scrollToBottom p
  else
    scrollToBottom
      (appendChild
         (message_bubble
            ("message " +:+ speaker +:+ (if isBounce then " bounce" else ""))
            (make_avatar speaker p) text) p).

Definition handleCallStart (data : CallStart) (p : page) : page :=
  let p := with_chatMessages
             (remove_element (DOM.by_class "welcome-message") (chatMessages p)) p in
  let p := with_turnCount "0" p in
  let p := with_badge (agent data) (agent_info data)
             (JS.template (JS.or_prop (JS.get AGENT_ICONS (style (agent data))) "?"))
             p in
  let p := with_dash (resetDashboard (dash p)) p in
  scrollToBottom
    (appendChild
       (call_divider (JS.show (call_id data)) (style (agent data))
          (display_name (agent_info data)) (warmup_mode data)
          (divider_html data)) p).

Definition outcomeEmoji : gmap string string :=
  {[ "conversion" := "+"; "missed_opp" := "-";
     "fraud_caught" := "!"; "fraud_missed" := "X" ]}.

Definition make_card (data : CallEnd) : card :=
  {| card_class := "outcome-card " +:+ outcome data;
     outcome_emoji := JS.template (JS.or_prop (JS.get outcomeEmoji (outcome data)) "?");
     outcome_title := outcome_description data;
     points_class := if JS.ge (points data) 0 then "positive" else "negative";
     points_text :=
       (if JS.ge (points data) 0 then "+" else "") +:+ JS.show (points data) +:+ " pts";
     guess_badge := if motivation_correct data then "Correct!" else "Wrong";
     action_text :=
       if close_attempted data then "Closed"
       else if flag_used data then "Flagged"
       else if customer_bounced data then "Customer Left"
       else "Timed Out";
     turns_text := JS.show (turns_used data) +:+ "/14" |}.

(** [loadInitialStats()] starts a request whose answer only rewrites the
    five score counters of the stats bar, which are not part of [page]. *)
Definition handleCallEnd (data : CallEnd) (p : page) : page :=
  let p := scrollToBottom
             (appendChild (outcome_card (make_card data) (card_html data)) p) in
  with_startButton_disabled false p.

Definition handleMessage (data : event) (p : page) : page :=
  match data with
  | call_start d => handleCallStart d p
  | typing speaker => showTypingIndicator speaker p
  | message speaker text is_bounce is_end turn =>
      let p := hideTypingIndicator p in
      let p := addMessage speaker text is_bounce is_end p in
      if JS.truthy_num turn then with_turnCount (JS.show (default 0%Z turn)) p else p
  | dashboard_update d => updateDashboard d p
  | call_end d => handleCallEnd d p
  | unknown _ => p
  end.

(** [connect()]: a new socket, in state CONNECTING. *)
Definition connect (p : page) : page := with_ws (Some CONNECTING) p.

Definition startNewCall (p : page) : page :=
  match ws p with
  | Some OPEN =>
      let p := with_startButton_disabled true p in
      with_sent (sent p ++ [new_call]) p
  | _ => p
  end.

(** *** The browser's calls into the script

    The handlers installed by [connect()] and by [addEventListener].  The
    browser moves the socket to OPEN before [onopen] and to CLOSED before
    [onclose]; [setTimeout(connect, 2000)] shows up as a later
    [timer_connect]; a click reaches [startNewCall] only when the button is
    not disabled, since a disabled button dispatches no click event. *)
Inductive input : Type :=
| ws_onopen
| ws_onclose
| ws_onerror
| ws_onmessage (data : event)
| timer_connect
| click_startButton.

Definition step (p : page) (i : input) : page :=
  match i with
  | ws_onopen => with_startButton_disabled false (with_ws (Some OPEN) p)
  | ws_onclose => with_startButton_disabled true (with_ws (Some CLOSED) p)
  | ws_onerror => p
  | ws_onmessage data => handleMessage data p
  | timer_connect => connect p
  | click_startButton => if startButton_disabled p then p else startNewCall p
  end.

Definition run (p : page) (l : list input) : page := fold_left step l p.

(** Number of [new_call] frames an input makes the script send. *)
Definition sends (p : page) (i : input) : nat :=
  (length (sent (step p i)) - length (sent p))%nat.

Definition count_indicators (l : list node) : nat :=
  length (filter (fun n => is_typing_indicator n = true) l).

(** The inputs on which the script enables the start button: a socket
    that opens, and a [call_end] event. *)
Definition reenables (i : input) : bool :=
  match i with
  | ws_onopen => true
  | ws_onmessage (call_end _) => true
  | _ => false
  end.

Definition is_message (i : input) : bool :=
  match i with
  | ws_onmessage (message _ _ _ _ _) => true
  | _ => false
  end.

(** Reading the display: a sentiment bar and its label show the value [v];
    the fraud bar and its label show [v]; the three motivation labels show
    the percentages [h], [t], [n]. *)
Definition shows_scalar (bar valueEl : elem) (v : Z) : Prop :=
  textContent valueEl = JS.show v /\ width bar = percent (v * 10).

Definition shows_fraud (d : dashboard) (v : Z) : Prop :=
  textContent (fraudRiskValue d) = JS.show v +:+ "/10"
  /\ width (fraudRiskBar d) = percent (v * 10).

Definition shows_motivation (d : dashboard) (h t n : Z) : Prop :=
  textContent (headValue d) = percent h /\ width (headBar d) = percent h
  /\ textContent (heartValue d) = percent t /\ width (heartBar d) = percent t
  /\ textContent (handValue d) = percent n /\ width (handBar d) = percent n.

Definition in_range (v : Z) : Prop := (0 <= v <= 10)%Z.

(** A bar whose width was assigned [n] percent: it has that width when
    [n] is not negative, and the width it had otherwise. *)
Definition bar_follows (before after : elem) (n : Z) : Prop :=
  width after = if (0 <=? n)%Z then percent n else width before.

(** A scalar shown unclamped: the label holds the writing of [v], the bar
    was assigned ten times [v] percent, and the label holds the writing of
    a value of 0..10 exactly when [v] is one. *)
Definition unclamped (before after valueEl : elem) (write : Z -> string) (v : Z)
  : Prop :=
  textContent valueEl = write v
  /\ bar_follows before after (v * 10)
  /\ ((exists w : Z, in_range w /\ textContent valueEl = write w) <-> in_range v).

(** How the fraud label writes a value. *)
Definition out_of_ten (v : Z) : string := JS.show v +:+ "/10".

End Script.

(** ** The two chat clients

    [Chat] holds what both scripts share by construction: the events of the
    wire protocol and the elements they create. *)

Module Chat.

Record Stats : Type := { converted : Z; stayed : Z; maybe : Z }.

Record Profile : Type := {
  primary_loyalty : string;
  openness_to_switch : string;
  disclosure_style : string
}.

(** A [session_end] event comes with [card_html], the children that the
    browser's parser builds from the markup the scripts assign to
    [card.innerHTML]. *)
Record SessionEnd : Type := {
  end_stats : option Stats;          (* data.stats *)
  outcome : string;
  actual_profile : Profile;
  prediction_correct : bool;
  advocate_prediction : option string;
  card_html : list DOM.dom
}.

Inductive event : Type :=
| session_start (session_id : Z) (stats : option Stats)
| typing (speaker : string)
| message (speaker text : string)
| session_end (data : SessionEnd)
| unknown (type : string).

Record card : Type := {
  card_class : string;               (* `outcome-card ${data.outcome}` *)
  heading : JS.shown;                (* <h3>${outcomeText[data.outcome]}</h3> *)
  loyalty : string;
  openness : string;
  disclosure : string;
  prediction : string;
  prediction_class : string;
  prediction_text : string
}.

Inductive node : Type :=
| welcome_message
| session_divider (text : string)
| message_bubble (class avatar text : string)
| typing_indicator (class avatar : string)
| outcome_card (c : card) (inner : list DOM.dom).

Inductive readyState : Type := CONNECTING | OPEN | CLOSING | CLOSED.

(** The only frame the clients send: [{ type: 'new_session' }]. *)
Inductive frame : Type := new_session.

(** Children told apart by how the script made them, and a list without
    the first child of a kind.  These describe the chat; the scripts'
    own lookups go by id and class, see [remove_element]. *)
Fixpoint remove_first (f : node -> bool) (l : list node) : list node :=
  match l with
  | [] => []
  | n :: r => if f n then r else n :: remove_first f r
  end.

Definition is_typing_indicator (n : node) : bool :=
  match n with typing_indicator _ _ => true | _ => false end.

Definition is_welcome (n : node) : bool :=
  match n with welcome_message => true | _ => false end.

Definition count_indicators (l : list node) : nat :=
  length (filter (fun n => is_typing_indicator n = true) l).

(** Id and class of a child of the chat, what it holds that the lookups
    can reach (the divider holds one [span] around a number, the bubbles
    and the indicator elements of fixed classes), and the child with that
    replaced. *)
Definition own (n : node) : string * string :=
  match n with
  | welcome_message => ("", "welcome-message")
  | session_divider _ => ("", "session-divider")
  | message_bubble class _ _ => ("", class)
  | typing_indicator class _ => ("typing-indicator", class)
  | outcome_card c _ => ("", card_class c)
  end.

Definition inner_of (n : node) : list DOM.dom :=
  match n with
  | outcome_card _ inner => inner
  | _ => []
  end.

Definition with_inner (n : node) (inner : list DOM.dom) : node :=
  match n with
  | outcome_card c _ => outcome_card c inner
  | _ => n
  end.

(** [lookup(...)?.remove()] over the chat. *)
Definition remove_element (q : DOM.selector) (l : list node) : list node :=
  DOM.remove_in own inner_of with_inner q l.

End Chat.

(** *** First client *)

Module Part000.
Import Chat.

Record page : Type := {
  ws : option readyState;
  sessionCount : Z;
  startButton_disabled : bool;
  sessionCountEl : string;
  convertedCountEl : string;
  stayedCountEl : string;
  maybeCountEl : string;
  chatMessages : list node;
  sent : list frame
}.

Definition with_ws (v : option readyState) (p : page) : page :=
  {| ws := v; sessionCount := sessionCount p;
     startButton_disabled := startButton_disabled p;
     sessionCountEl := sessionCountEl p; convertedCountEl := convertedCountEl p;
     stayedCountEl := stayedCountEl p; maybeCountEl := maybeCountEl p;
     chatMessages := chatMessages p; sent := sent p |}.

Definition with_session (n : Z) (p : page) : page :=
  {| ws := ws p; sessionCount := n;
     startButton_disabled := startButton_disabled p;
     sessionCountEl := JS.show n; convertedCountEl := convertedCountEl p;
     stayedCountEl := stayedCountEl p; maybeCountEl := maybeCountEl p;
     chatMessages := chatMessages p; sent := sent p |}.

Definition with_startButton_disabled (v : bool) (p : page) : page :=
  {| ws := ws p; sessionCount := sessionCount p;
     startButton_disabled := v;
     sessionCountEl := sessionCountEl p; convertedCountEl := convertedCountEl p;
     stayedCountEl := stayedCountEl p; maybeCountEl := maybeCountEl p;
     chatMessages := chatMessages p; sent := sent p |}.

Definition with_chatMessages (v : list node) (p : page) : page :=
  {| ws := ws p; sessionCount := sessionCount p;
     startButton_disabled := startButton_disabled p;
     sessionCountEl := sessionCountEl p; convertedCountEl := convertedCountEl p;
     stayedCountEl := stayedCountEl p; maybeCountEl := maybeCountEl p;
     chatMessages := v; sent := sent p |}.

Definition with_sent (v : list frame) (p : page) : page :=
  {| ws := ws p; sessionCount := sessionCount p;
     startButton_disabled := startButton_disabled p;
     sessionCountEl := sessionCountEl p; convertedCountEl := convertedCountEl p;
     stayedCountEl := stayedCountEl p; maybeCountEl := maybeCountEl p;
     chatMessages := chatMessages p; sent := v |}.

Definition updateStats (stats : Stats) (p : page) : page :=
  {| ws := ws p; sessionCount := sessionCount p;
     startButton_disabled := startButton_disabled p;
     sessionCountEl := sessionCountEl p;
     convertedCountEl := JS.show (converted stats);
     stayedCountEl := JS.show (stayed stats);
     maybeCountEl := JS.show (maybe stats);
     chatMessages := chatMessages p; sent := sent p |}.

Definition appendChild (n : node) (p : page) : page :=
  with_chatMessages (chatMessages p ++ [n]) p.

Definition scrollToBottom (p : page) : page := p.

Definition handleSessionStart (session_id : Z) (stats : option Stats) (p : page)
  : page :=
  let p := with_session session_id p in
  let p := match stats with Some st => updateStats st p | None => p end in
  let p := with_chatMessages
             (remove_element (DOM.by_class "welcome-message") (chatMessages p)) p in
  scrollToBottom
    (appendChild (session_divider ("Session " +:+ JS.show (sessionCount p))) p).

Definition avatar_of (speaker : string) : string :=
  if String.eqb speaker "android" then "🤖" else "📱".

Definition addMessage (speaker text : string) (p : page) : page :=
  scrollToBottom
    (appendChild (message_bubble ("message " +:+ speaker) (avatar_of speaker) text) p).

Definition hideTypingIndicator (p : page) : page :=
  with_chatMessages
    (remove_element (DOM.by_id "typing-indicator") (chatMessages p)) p.

Definition showTypingIndicator (speaker : string) (p : page) : page :=
  let p := hideTypingIndicator p in
  scrollToBottom
    (appendChild
       (typing_indicator ("typing-indicator " +:+ speaker) (avatar_of speaker)) p).

Definition outcomeText : gmap string string :=
  {[ "converted" := "✅ Converted to Android!";
     "stayed" := "📱 Staying with iPhone";
     "maybe" := "🤔 Maybe Later" ]}.

Definition make_card (data : SessionEnd) : card :=
  {| card_class := "outcome-card " +:+ outcome data;
     heading := JS.template (JS.get outcomeText (outcome data));
     loyalty := primary_loyalty (actual_profile data);
     openness := openness_to_switch (actual_profile data);
     disclosure := disclosure_style (actual_profile data);
     prediction := JS.or_str (advocate_prediction data) "N/A";
     prediction_class := if prediction_correct data then "correct" else "incorrect";
     prediction_text := if prediction_correct data then "Correct!" else "Wrong" |}.

Definition handleSessionEnd (data : SessionEnd) (p : page) : page :=
  let p := match end_stats data with Some st => updateStats st p | None => p end in
  let p := scrollToBottom
             (appendChild (outcome_card (make_card data) (card_html data)) p) in
  with_startButton_disabled false p.

Definition handleMessage (data : event) (p : page) : page :=
  match data with
  | session_start session_id stats => handleSessionStart session_id stats p
  | typing speaker => showTypingIndicator speaker p
  | message speaker text =>
      let p := hideTypingIndicator p in
      addMessage speaker text p
  | session_end d => handleSessionEnd d p
  | unknown _ => p
  end.

Definition connect (p : page) : page := with_ws (Some CONNECTING) p.

Definition startNewSession (p : page) : page :=
  match ws p with
  | Some OPEN =>
      let p := with_startButton_disabled true p in
      with_sent (sent p ++ [new_session]) p
  | _ => p
  end.

(** The browser's calls into the script, as for [Script.input]. *)
Inductive input : Type :=
| ws_onopen
| ws_onclose
| ws_onerror
| ws_onmessage (data : event)
| timer_connect
| click_startButton.

Definition step (p : page) (i : input) : page :=
  match i with
  | ws_onopen => with_startButton_disabled false (with_ws (Some OPEN) p)
  | ws_onclose => with_startButton_disabled true (with_ws (Some CLOSED) p)
  | ws_onerror => p
  | ws_onmessage data => handleMessage data p
  | timer_connect => connect p
  | click_startButton => if startButton_disabled p then p else startNewSession p
  end.

Definition run (p : page) (l : list input) : page := fold_left step l p.

Definition is_message (i : input) : bool :=
  match i with
  | ws_onmessage (message _ _) => true
  | _ => false
  end.

(** A page right after the script has run. *)
Definition loaded : page :=
  {| ws := Some CONNECTING; sessionCount := 0; startButton_disabled := true;
     sessionCountEl := "0"; convertedCountEl := "0"; stayedCountEl := "0";
     maybeCountEl := "0"; chatMessages := [welcome_message]; sent := [] |}.

End Part000.

(** *** Second client: the first one and the insights modal *)

Module Part001.
Import Chat.

Record InsightStats : Type := { rate : Z; stat_converted : Z; count : Z }.

(** The answer of [/api/insights].  [by_loyalty] is iterated in order,
    [pitch_effectiveness] is only looked up. *)
Record Insights : Type := {
  total_sessions : option Z;
  overall_conversion_rate : Z;
  prediction_accuracy : Z;
  by_loyalty : option (list (string * InsightStats));
  pitch_effectiveness : option (gmap string InsightStats);
  key_learnings : option (list string);
  memory_summary : option string
}.

Record insight_card : Type := {
  label : string;
  value : string;
  value_class : string;
  detail : option string
}.

Inductive section : Type :=
| grid (title : string) (cards : list insight_card)
| learnings (items : list string)
| memory (text : string).

(** What [#insights-content] holds. *)
Inductive content : Type :=
| static_content
| loading
| load_error
| no_data
| report (sections : list section).

Record page : Type := {
  ws : option readyState;
  sessionCount : Z;
  startButton_disabled : bool;
  sessionCountEl : string;
  convertedCountEl : string;
  stayedCountEl : string;
  maybeCountEl : string;
  chatMessages : list node;
  sent : list frame;
  insightsModal_active : bool;       (* class [active] of [#insights-modal] *)
  insightsContent : content
}.

Definition with_ws (v : option readyState) (p : page) : page :=
  {| ws := v; sessionCount := sessionCount p;
     startButton_disabled := startButton_disabled p;
     sessionCountEl := sessionCountEl p; convertedCountEl := convertedCountEl p;
     stayedCountEl := stayedCountEl p; maybeCountEl := maybeCountEl p;
     chatMessages := chatMessages p; sent := sent p;
     insightsModal_active := insightsModal_active p;
     insightsContent := insightsContent p |}.

Definition with_session (n : Z) (p : page) : page :=
  {| ws := ws p; sessionCount := n;
     startButton_disabled := startButton_disabled p;
     sessionCountEl := JS.show n; convertedCountEl := convertedCountEl p;
     stayedCountEl := stayedCountEl p; maybeCountEl := maybeCountEl p;
     chatMessages := chatMessages p; sent := sent p;
     insightsModal_active := insightsModal_active p;
     insightsContent := insightsContent p |}.

Definition with_startButton_disabled (v : bool) (p : page) : page :=
  {| ws := ws p; sessionCount := sessionCount p;
     startButton_disabled := v;
     sessionCountEl := sessionCountEl p; convertedCountEl := convertedCountEl p;
     stayedCountEl := stayedCountEl p; maybeCountEl := maybeCountEl p;
     chatMessages := chatMessages p; sent := sent p;
     insightsModal_active := insightsModal_active p;
     insightsContent := insightsContent p |}.

Definition with_chatMessages (v : list node) (p : page) : page :=
  {| ws := ws p; sessionCount := sessionCount p;
     startButton_disabled := startButton_disabled p;
     sessionCountEl := sessionCountEl p; convertedCountEl := convertedCountEl p;
     stayedCountEl := stayedCountEl p; maybeCountEl := maybeCountEl p;
     chatMessages := v; sent := sent p;
     insightsModal_active := insightsModal_active p;
     insightsContent := insightsContent p |}.

Definition with_sent (v : list frame) (p : page) : page :=
  {| ws := ws p; sessionCount := sessionCount p;
     startButton_disabled := startButton_disabled p;
     sessionCountEl := sessionCountEl p; convertedCountEl := convertedCountEl p;
     stayedCountEl := stayedCountEl p; maybeCountEl := maybeCountEl p;
     chatMessages := chatMessages p; sent := v;
     insightsModal_active := insightsModal_active p;
     insightsContent := insightsContent p |}.

Definition with_insights (active : bool) (c : content) (p : page) : page :=
  {| ws := ws p; sessionCount := sessionCount p;
     startButton_disabled := startButton_disabled p;
     sessionCountEl := sessionCountEl p; convertedCountEl := convertedCountEl p;
     stayedCountEl := stayedCountEl p; maybeCountEl := maybeCountEl p;
     chatMessages := chatMessages p; sent := sent p;
     insightsModal_active := active;
     insightsContent := c |}.

Definition updateStats (stats : Stats) (p : page) : page :=
  {| ws := ws p; sessionCount := sessionCount p;
     startButton_disabled := startButton_disabled p;
     sessionCountEl := sessionCountEl p;
     convertedCountEl := JS.show (converted stats);
     stayedCountEl := JS.show (stayed stats);
     maybeCountEl := JS.show (maybe stats);
     chatMessages := chatMessages p; sent := sent p;
     insightsModal_active := insightsModal_active p;
     insightsContent := insightsContent p |}.

Definition appendChild (n : node) (p : page) : page :=
  with_chatMessages (chatMessages p ++ [n]) p.

Definition scrollToBottom (p : page) : page := p.

Definition handleSessionStart (session_id : Z) (stats : option Stats) (p : page)
  : page :=
  let p := with_session session_id p in
  let p := match stats with Some st => updateStats st p | None => p end in
  let p := with_chatMessages
             (remove_element (DOM.by_class "welcome-message") (chatMessages p)) p in
  scrollToBottom
    (appendChild (session_divider ("Session " +:+ JS.show (sessionCount p))) p).

Definition avatar_of (speaker : string) : string :=
  if String.eqb speaker "android" then "🤖" else "📱".

Definition addMessage (speaker text : string) (p : page) : page :=
  scrollToBottom
    (appendChild (message_bubble ("message " +:+ speaker) (avatar_of speaker) text) p).

Definition hideTypingIndicator (p : page) : page :=
  with_chatMessages
    (remove_element (DOM.by_id "typing-indicator") (chatMessages p)) p.

Definition showTypingIndicator (speaker : string) (p : page) : page :=
  let p := hideTypingIndicator p in
  scrollToBottom
    (appendChild
       (typing_indicator ("typing-indicator " +:+ speaker) (avatar_of speaker)) p).

Definition outcomeText : gmap string string :=
  {[ "converted" := "✅ Converted to Android!";
     "stayed" := "📱 Staying with iPhone";
     "maybe" := "🤔 Maybe Later" ]}.

Definition make_card (data : SessionEnd) : card :=
  {| card_class := "outcome-card " +:+ outcome data;
     heading := JS.template (JS.get outcomeText (outcome data));
     loyalty := primary_loyalty (actual_profile data);
     openness := openness_to_switch (actual_profile data);
     disclosure := disclosure_style (actual_profile data);
     prediction := JS.or_str (advocate_prediction data) "N/A";
     prediction_class := if prediction_correct data then "correct" else "incorrect";
     prediction_text := if prediction_correct data then "Correct!" else "Wrong" |}.

Definition handleSessionEnd (data : SessionEnd) (p : page) : page :=
  let p := match end_stats data with Some st => updateStats st p | None => p end in
  let p := scrollToBottom
             (appendChild (outcome_card (make_card data) (card_html data)) p) in
  with_startButton_disabled false p.

Definition handleMessage (data : event) (p : page) : page :=
  match data with
  | session_start session_id stats => handleSessionStart session_id stats p
  | typing speaker => showTypingIndicator speaker p
  | message speaker text =>
      let p := hideTypingIndicator p in
      addMessage speaker text p
  | session_end d => handleSessionEnd d p
  | unknown _ => p
  end.

Definition connect (p : page) : page := with_ws (Some CONNECTING) p.

Definition startNewSession (p : page) : page :=
  match ws p with
  | Some OPEN =>
      let p := with_startButton_disabled true p in
      with_sent (sent p ++ [new_session]) p
  | _ => p
  end.

(** The insights modal. *)
Definition good_bad (r : Z) : string := if JS.ge r 50 then "good" else "bad".

Definition stat_card (l : string) (class : string) (m : InsightStats) : insight_card :=
  {| label := l; value := JS.show (rate m) +:+ "%"; value_class := class;
     detail := Some (JS.show (stat_converted m) +:+ "/" +:+ JS.show (count m)) |}.

Definition loyalty_card (entry : string * InsightStats) : insight_card :=
  let '(type, stats) := entry in
  stat_card (JS.toUpperCase type)
    (if JS.ge (rate stats) 50 then "good"
     else if JS.ge (rate stats) 25 then "neutral" else "bad")
    stats.

Definition renderInsights (data : Insights) : content :=
  if negb (JS.truthy_num (total_sessions data)) then no_data
  else
    report
      ([ grid "Overview"
           [ {| label := "Total Sessions";
                value := JS.show (default 0%Z (total_sessions data));
                value_class := "neutral"; detail := None |};
             {| label := "Conversion Rate";
                value := JS.show (overall_conversion_rate data) +:+ "%";
                value_class := good_bad (overall_conversion_rate data);
                detail := None |};
             {| label := "Prediction Accuracy";
                value := JS.show (prediction_accuracy data) +:+ "%";
                value_class := good_bad (prediction_accuracy data);
                detail := None |} ] ]
       ++ match by_loyalty data with
          | Some (e :: l) =>
              [ grid "Conversion by Loyalty Type" (loyalty_card <$> (e :: l)) ]
          | _ => []
          end
       ++ match pitch_effectiveness data with
          | Some o =>
              if bool_decide (o = ∅) then []
              else
                [ grid "Pitch Matching Effectiveness"
                    (match o !! "matched" with
                     | Some m => [stat_card "Matched Pitch" (good_bad (rate m)) m]
                     | None => []
                     end ++
                     match o !! "mismatched" with
                     | Some m => [stat_card "Mismatched Pitch" (good_bad (rate m)) m]
                     | None => []
                     end) ]
          | None => []
          end
       ++ match key_learnings data with
          | Some (x :: l) => [ learnings (x :: l) ]
          | _ => []
          end
       ++ match memory_summary data with
          | Some "" => []
          | Some t => [ memory t ]
          | None => []
          end).

Definition hideInsights (p : page) : page :=
  with_insights false (insightsContent p) p.

(** The browser's calls into the script: those of the first client, the
    click on the insights button (the synchronous part of [showInsights]),
    the two ways its request can end, and the two listeners closing the
    modal. *)
Inductive input : Type :=
| ws_onopen
| ws_onclose
| ws_onerror
| ws_onmessage (data : event)
| timer_connect
| click_startButton
| click_insightsButton
| insights_response (data : Insights)
| insights_failure
| click_modalClose
| click_insightsModal (on_backdrop : bool).

Definition step (p : page) (i : input) : page :=
  match i with
  | ws_onopen => with_startButton_disabled false (with_ws (Some OPEN) p)
  | ws_onclose => with_startButton_disabled true (with_ws (Some CLOSED) p)
  | ws_onerror => p
  | ws_onmessage data => handleMessage data p
  | timer_connect => connect p
  | click_startButton => if startButton_disabled p then p else startNewSession p
  | click_insightsButton => with_insights true loading p
  | insights_response data =>
      with_insights (insightsModal_active p) (renderInsights data) p
  | insights_failure => with_insights (insightsModal_active p) load_error p
  | click_modalClose => hideInsights p
  | click_insightsModal on_backdrop => if on_backdrop then hideInsights p else p
  end.

Definition run (p : page) (l : list input) : page := fold_left step l p.

(** What the second client shows of the session: its page without the
    insights modal. *)
Definition session_view (p : page) : Part000.page :=
  {| Part000.ws := ws p;
     Part000.sessionCount := sessionCount p;
     Part000.startButton_disabled := startButton_disabled p;
     Part000.sessionCountEl := sessionCountEl p;
     Part000.convertedCountEl := convertedCountEl p;
     Part000.stayedCountEl := stayedCountEl p;
     Part000.maybeCountEl := maybeCountEl p;
     Part000.chatMessages := chatMessages p;
     Part000.sent := sent p |}.

(** The inputs of the second client that the first one has too. *)
Definition shared_input (i : input) : option Part000.input :=
  match i with
  | ws_onopen => Some Part000.ws_onopen
  | ws_onclose => Some Part000.ws_onclose
  | ws_onerror => Some Part000.ws_onerror
  | ws_onmessage data => Some (Part000.ws_onmessage data)
  | timer_connect => Some Part000.timer_connect
  | click_startButton => Some Part000.click_startButton
  | _ => None
  end.

End Part001.

(** ** The properties as the specification words them *)

Module Spec.

(** Two characters that are equal up to the case of a Latin letter. *)
Definition same_letter (c a : ascii) : Prop :=
  c = a
  \/ (JS.is_upper c = true /\ nat_of_ascii a = (nat_of_ascii c + 32)%nat)
  \/ (JS.is_upper a = true /\ nat_of_ascii c = (nat_of_ascii a + 32)%nat).

(** Case-insensitive equality of strings; the Kelvin sign is a capital
    [k]. *)
Inductive ci_eq : string -> string -> Prop :=
| ci_nil : ci_eq "" ""
| ci_cons c a s t : same_letter c a -> ci_eq s t -> ci_eq (String c s) (String a t)
| ci_kelvin_l a s t :
    same_letter a "k" -> ci_eq s t -> ci_eq (JS.kelvin +:+ s) (String a t)
| ci_kelvin_r c s t :
    same_letter c "k" -> ci_eq s t -> ci_eq (String c s) (JS.kelvin +:+ t).

(** A tone, possibly absent, is in a keyword set up to case. *)
Definition in_ci (tone : option string) (keywords : list string) : Prop :=
  exists s k, tone = Some s /\ k ∈ keywords /\ ci_eq s k.

(** Dominant motivation with ties resolved in the order head, heart,
    hand. *)
Definition dominant (head heart hand : Z) : string :=
  if (heart <=? head)%Z && (hand <=? head)%Z then "head"
  else if (hand <=? heart)%Z then "heart"
  else "hand".

End Spec.

(** ** Sample pages and events *)

Module Sample.
Import Script.

Definition blank : elem :=
  {| textContent := ""; className := ""; width := ""; display := "" |}.

Definition blank_dashboard : dashboard :=
  {| fraudRiskBar := blank; fraudRiskValue := blank;
     headBar := blank; headValue := blank;
     heartBar := blank; heartValue := blank;
     handBar := blank; handValue := blank;
     dominant := [];
     reasoningText := blank;
     satisfactionBar := blank; satisfactionValue := blank;
     trustBar := blank; trustValue := blank;
     urgencyBar := blank; urgencyValue := blank;
     frustrationBar := blank; frustrationValue := blank;
     likelihoodBar := blank; likelihoodValue := blank;
     toneValue := blank;
     frustrationWarning := blank |}.

(** A page right after the script has run: the globals at their initial
    values, the socket connecting, the chat holding the welcome message. *)
Definition loaded : page :=
  {| ws := Some CONNECTING; currentFraudRisk := 2; currentAgentStyle := None;
     startButton_disabled := true; turnCount := "0";
     agentIcon_text := JS.Text "?"; agentIcon_class := "agent-icon";
     agentName := ""; agentStyle := "";
     chatMessages := [welcome_message];
     dash := resetDashboard blank_dashboard;
     sent := [] |}.

Definition calm : Sentiment :=
  {| satisfaction := 5; trust := 5; urgency := 5; frustration := 2;
     likelihood_to_convert := 5; emotional_tone := None |}.

(** An update whose estimator gave no fraud likelihood and no motivation
    distribution. *)
Definition no_opinion : DashboardUpdate :=
  {| confidence :=
       {| fraud_likelihood := None; motivation_guess := None; reasoning := None |};
     sentiment := calm;
     turn := Some 1%Z |}.

(** An update with values above ten and percentages above a hundred. *)
Definition over_range : DashboardUpdate :=
  {| confidence :=
       {| fraud_likelihood := Some 15%Z;
          motivation_guess := Some {| head := 50; heart := 50; hand := 50 |};
          reasoning := Some "sure" |};
     sentiment :=
       {| satisfaction := 12; trust := 5; urgency := 5; frustration := 2;
          likelihood_to_convert := 5; emotional_tone := Some "Happy" |};
     turn := Some 2%Z |}.

(** An update of a call that goes badly. *)
Definition alarming : DashboardUpdate :=
  {| confidence :=
       {| fraud_likelihood := Some 8%Z;
          motivation_guess := Some {| head := 20; heart := 30; hand := 50 |};
          reasoning := Some "inconsistent story" |};
     sentiment :=
       {| satisfaction := 3; trust := 2; urgency := 8; frustration := 9;
          likelihood_to_convert := 1; emotional_tone := Some "hostile" |};
     turn := Some 6%Z |}.

(** The children of a call divider whose display name parses to [name]
    (no element when it is plain text). *)
Definition divider_children (style : string) (name : list DOM.dom) (warmup : bool)
  : list DOM.dom :=
  [DOM.el "" "" []; DOM.el "" ("agent-tag " +:+ style) name]
  ++ (if warmup then [DOM.el "" "warmup-tag" []] else []).

(** The children of an outcome card of [static/script.js] whose fields are
    plain text, for a call without pitch, flag reason and transcript. *)
Definition card_children (points_class motivation : string) (is_fraud correct : bool)
  : list DOM.dom :=
  let label := DOM.el "" "label" [] in
  let plain := DOM.el "" "" [] in
  [ DOM.el "" "outcome-header"
      [ DOM.el "" "outcome-emoji" []; DOM.el "" "outcome-title" [];
        DOM.el "" ("outcome-points " +:+ points_class) [] ];
    DOM.el "" "outcome-details"
      [ DOM.el "" "detail-section"
          [ plain;
            DOM.el "" "detail-grid"
              [ label; plain; label; plain; label;
                DOM.el "" ("motivation-badge " +:+ motivation) [];
                label;
                DOM.el "" ("fraud-badge " +:+ (if is_fraud then "yes" else "no")) [] ] ];
        DOM.el "" "detail-section"
          [ plain;
            DOM.el "" "detail-grid"
              [ label;
                DOM.el "" ""
                  [ DOM.el "" ("guess-badge " +:+
                               (if correct then "correct" else "incorrect")) [] ];
                label; plain; label; plain ] ];
        DOM.el "" "detail-section" [ plain; DOM.el "" "learning-text" [] ];
        DOM.el "" "detail-section transcript-section"
          [ plain; DOM.el "" "toggle-transcript" [];
            DOM.el "" "transcript-log hidden" [ plain ] ] ] ].

(** The children of an outcome card of the chat clients whose fields are
    plain text. *)
Definition session_card_children (prediction_class : string) : list DOM.dom :=
  let line := DOM.el "" "" [DOM.el "" "label" []] in
  [ DOM.el "" "" [];
    DOM.el "" "outcome-details"
      [ line; line; line;
        DOM.el "" ""
          [ DOM.el "" "label" [];
            DOM.el "" ("prediction-badge " +:+ prediction_class) [] ] ] ].

Definition flagged : CallEnd :=
  {| outcome := "fraud_caught"; outcome_description := "Fraud caught";
     points := 10; motivation_correct := false; close_attempted := false;
     flag_used := true; customer_bounced := false; turns_used := 6;
     card_html := card_children "positive" "hand" true false |}.

(** A [call_end] event with a given outcome. *)
Definition ended (o : string) : CallEnd :=
  {| outcome := o; outcome_description := "Call over";
     points := 0; motivation_correct := false; close_attempted := false;
     flag_used := false; customer_bounced := true; turns_used := 3;
     card_html := card_children "positive" "heart" false false |}.

(** A [session_end] event with a given outcome. *)
Definition session_ended (o : string) : Chat.SessionEnd :=
  {| Chat.end_stats := None; Chat.outcome := o;
     Chat.actual_profile :=
       {| Chat.primary_loyalty := "head"; Chat.openness_to_switch := "low";
          Chat.disclosure_style := "guarded" |};
     Chat.prediction_correct := false; Chat.advocate_prediction := None;
     Chat.card_html := session_card_children "incorrect" |}.

(** Markup that makes two elements carrying the id of the typing
    indicator, and the elements the parser builds from it. *)
Definition two_ids : string :=
  "<i id=typing-indicator></i><i id=typing-indicator></i>".

Definition two_ids_html : list DOM.dom :=
  [DOM.el "typing-indicator" "" []; DOM.el "typing-indicator" "" []].

(** A [call_start] whose agent display name is that markup. *)
Definition smuggling_call : CallStart :=
  {| call_id := 3;
     agent := {| style := "closer"; name := "Kim" |};
     agent_info := {| display_name := two_ids |};
     warmup_mode := false;
     divider_html := divider_children "closer" two_ids_html false |}.

(** A [session_end] whose profile names that markup as the loyalty. *)
Definition smuggling_end : Chat.SessionEnd :=
  {| Chat.end_stats := None; Chat.outcome := "stayed";
     Chat.actual_profile :=
       {| Chat.primary_loyalty := two_ids; Chat.openness_to_switch := "low";
          Chat.disclosure_style := "guarded" |};
     Chat.prediction_correct := true; Chat.advocate_prediction := None;
     Chat.card_html :=
       [ DOM.el "" "" [];
         DOM.el "" "outcome-details"
           [ DOM.el "" "" (DOM.el "" "label" [] :: two_ids_html);
             DOM.el "" "" [DOM.el "" "label" []];
             DOM.el "" "" [DOM.el "" "label" []];
             DOM.el "" ""
               [ DOM.el "" "label" [];
                 DOM.el "" "prediction-badge correct" [] ] ] ] |}.

Definition second_call : CallStart :=
  {| call_id := 2;
     agent := {| style := "detective"; name := "Sam" |};
     agent_info := {| display_name := "The Detective" |};
     warmup_mode := false;
     divider_html := divider_children "detective" [] false |}.

End Sample.

(** ** [static/script.js]: the stats bar, the warm-up button and the
    leaderboard modal

    These handlers touch elements of their own (the five score counters,
    [#warmup-button], [#leaderboard-modal], [#leaderboard-content]) and the
    global [warmupMode]; none of them reads or writes what [Script.page]
    holds, so they have their state to themselves. *)

Module Board.

(** An entry of the answer of [/api/leaderboard]. *)
Record Entry : Type := {
  style : string;
  display_name : option string;
  total_points : option Z;
  total_calls : Z;
  conversion_rate : Z;
  frauds_caught : Z
}.

(** [textContent] of the five score counters. *)
Record scores : Type := {
  closerPoints : string;
  detectivePoints : string;
  empathPoints : string;
  robotPoints : string;
  gamblerPoints : string
}.

(** A row of the leaderboard, as the data interpolated into its markup. *)
Record row : Type := {
  item_class : string;               (* `leaderboard-item ${agent.style}` *)
  rank : string;                     (* `#${rank}` *)
  rank_class : string;
  agent_name : string;
  calls : string;
  conv : string;
  caught : string;
  row_points_class : string;
  row_points : string
}.

(** What [#leaderboard-content] holds. *)
Inductive content : Type :=
| static_content
| loading
| load_error
| no_data
| rows (l : list row).

Record board : Type := {
  points : scores;
  warmupMode : bool;
  warmupButton_text : string;
  warmupButton_class : string;
  leaderboardModal_active : bool;    (* class [active] of [#leaderboard-modal] *)
  leaderboardContent : content
}.

(** `+${points}` or `${points}` in [updateAgentScores]. *)
Definition pointsText (n : Z) : string :=
  if JS.ge n 0 then "+" +:+ JS.show n else JS.show n.

(** The body of the [forEach] of [updateAgentScores]. *)
Definition set_score (s : scores) (agent : Entry) : scores :=
  let points := JS.or_num (total_points agent) 0 in
  let pointsText := pointsText points in
  if String.eqb (style agent) "closer" then
    {| closerPoints := pointsText; detectivePoints := detectivePoints s;
       empathPoints := empathPoints s; robotPoints := robotPoints s;
       gamblerPoints := gamblerPoints s |}
  else if String.eqb (style agent) "detective" then
    {| closerPoints := closerPoints s; detectivePoints := pointsText;
       empathPoints := empathPoints s; robotPoints := robotPoints s;
       gamblerPoints := gamblerPoints s |}
  else if String.eqb (style agent) "empath" then
    {| closerPoints := closerPoints s; detectivePoints := detectivePoints s;
       empathPoints := pointsText; robotPoints := robotPoints s;
       gamblerPoints := gamblerPoints s |}
  else if String.eqb (style agent) "robot" then
    {| closerPoints := closerPoints s; detectivePoints := detectivePoints s;
       empathPoints := empathPoints s; robotPoints := pointsText;
       gamblerPoints := gamblerPoints s |}
  else if String.eqb (style agent) "gambler" then
    {| closerPoints := closerPoints s; detectivePoints := detectivePoints s;
       empathPoints := empathPoints s; robotPoints := robotPoints s;
       gamblerPoints := pointsText |}
  else s.

Definition zero_scores : scores :=
  {| closerPoints := "0"; detectivePoints := "0"; empathPoints := "0";
     robotPoints := "0"; gamblerPoints := "0" |}.

Definition updateAgentScores (leaderboard : list Entry) (s : scores) : scores :=
  fold_left set_score leaderboard zero_scores.

(** The counter of an agent style, if the stats bar has one. *)
Definition counter (st : string) (s : scores) : option string :=
  if String.eqb st "closer" then Some (closerPoints s)
  else if String.eqb st "detective" then Some (detectivePoints s)
  else if String.eqb st "empath" then Some (empathPoints s)
  else if String.eqb st "robot" then Some (robotPoints s)
  else if String.eqb st "gambler" then Some (gamblerPoints s)
  else None.

Definition rankClass (rank : Z) : string :=
  if Z.eqb rank 1 then "gold"
  else if Z.eqb rank 2 then "silver"
  else if Z.eqb rank 3 then "bronze"
  else "".

(** The markup appended for one entry by the [forEach] of
    [renderLeaderboard].  An entry without [total_points] compares false
    with 0 and is interpolated as [undefined]. *)
Definition make_row (index : nat) (agent : Entry) : row :=
  let rank := (Z.of_nat index + 1)%Z in
  {| item_class := "leaderboard-item " +:+ style agent;
     rank := "#" +:+ JS.show rank;
     rank_class := rankClass rank;
     agent_name := JS.or_str (display_name agent) (style agent);
     calls := JS.show (total_calls agent);
     conv := JS.show (conversion_rate agent);
     caught := JS.show (frauds_caught agent);
     row_points_class :=
       match total_points agent with
       | Some n => if JS.ge n 0 then "positive" else "negative"
       | None => "negative"
       end;
     row_points :=
       match total_points agent with
       | Some n => (if JS.ge n 0 then "+" else "") +:+ JS.show n
       | None => "undefined"
       end |}.

(** [data] is [None] for a [null] answer. *)
Definition renderLeaderboard (data : option (list Entry)) : content :=
  match data with
  | None => no_data
  | Some [] => no_data
  | Some l => rows (imap make_row l)
  end.

Definition with_points (v : scores) (b : board) : board :=
  {| points := v; warmupMode := warmupMode b;
     warmupButton_text := warmupButton_text b;
     warmupButton_class := warmupButton_class b;
     leaderboardModal_active := leaderboardModal_active b;
     leaderboardContent := leaderboardContent b |}.

Definition with_warmupMode (v : bool) (b : board) : board :=
  {| points := points b; warmupMode := v;
     warmupButton_text := warmupButton_text b;
     warmupButton_class := warmupButton_class b;
     leaderboardModal_active := leaderboardModal_active b;
     leaderboardContent := leaderboardContent b |}.

Definition updateWarmupButton (b : board) : board :=
  {| points := points b; warmupMode := warmupMode b;
     warmupButton_text := "Warmup Mode: " +:+ (if warmupMode b then "ON" else "OFF");
     warmupButton_class := "warmup-button " +:+ (if warmupMode b then "active" else "");
     leaderboardModal_active := leaderboardModal_active b;
     leaderboardContent := leaderboardContent b |}.

Definition with_modal (active : bool) (c : content) (b : board) : board :=
  {| points := points b; warmupMode := warmupMode b;
     warmupButton_text := warmupButton_text b;
     warmupButton_class := warmupButton_class b;
     leaderboardModal_active := active;
     leaderboardContent := c |}.

Definition hideLeaderboard (b : board) : board :=
  with_modal false (leaderboardContent b) b.

(** The browser's calls into this part of the script: the answers to the
    requests of [loadInitialStats], of [loadWarmupStatus] and
    [toggleWarmup], and of [showLeaderboard] (a failed request of the first
    two only logs), the click that opens the modal and the two listeners
    that close it.  A click on the warm-up button only starts a request. *)
Inductive input : Type :=
| stats_response (leaderboard : list Entry)
| warmup_response (warmup_mode : bool)
| request_failed
| click_warmupButton
| click_leaderboardButton
| leaderboard_response (data : option (list Entry))
| leaderboard_failure
| click_modalClose
| click_leaderboardModal (on_backdrop : bool).

Definition step (b : board) (i : input) : board :=
  match i with
  | stats_response leaderboard =>
      with_points (updateAgentScores leaderboard (points b)) b
  | warmup_response warmup_mode =>
      updateWarmupButton (with_warmupMode warmup_mode b)
  | request_failed => b
  | click_warmupButton => b
  | click_leaderboardButton => with_modal true loading b
  | leaderboard_response data =>
      with_modal (leaderboardModal_active b) (renderLeaderboard data) b
  | leaderboard_failure => with_modal (leaderboardModal_active b) load_error b
  | click_modalClose => hideLeaderboard b
  | click_leaderboardModal on_backdrop => if on_backdrop then hideLeaderboard b else b
  end.

Definition run (b : board) (l : list input) : board := fold_left step l b.

(** The mode carried by the last answer about the warm-up mode. *)
Definition last_warmup (l : list input) : option bool :=
  last (omap (fun i => match i with warmup_response m => Some m | _ => None end) l).

(** The entries of a leaderboard for one style. *)
Definition of_style (st : string) (l : list Entry) : list Entry :=
  filter (fun a => style a = st) l.

(** A stats bar as the page may hold it before the first answer. *)
Definition start : board :=
  {| points := zero_scores; warmupMode := false;
     warmupButton_text := "Warmup Mode: OFF"; warmupButton_class := "warmup-button";
     leaderboardModal_active := false; leaderboardContent := static_content |}.

End Board.

(** ** Readings of the pages used by the further properties *)

Module Reading.




Definition is_fraud_alert (n : Script.node) : bool :=
  match n with Script.fraud_alert _ => true | _ => false end.

Definition count_alerts (l : list Script.node) : nat :=
  length (filter (fun n => is_fraud_alert n = true) l).

(** A fraud alert announces a risk of 5 or more. *)
Definition announces_5_or_more (n : Script.node) : Prop :=
  match n with
  | Script.fraud_alert t =>
      exists v : Z,
        (5 <= v)%Z /\ t = "Agent detected fraud risk: " +:+ JS.show v +:+ "/10"
  | _ => True
  end.

(** What an input of [static/script.js] leaves of the chat, and what it
    appends to it. *)
Definition cleared (p : Script.page) (i : Script.input) : list Script.node :=
  match i with
  | Script.ws_onmessage (Script.call_start _) =>
      Script.remove_element (DOM.by_class "welcome-message") (Script.chatMessages p)
  | Script.ws_onmessage (Script.typing _)
  | Script.ws_onmessage (Script.message _ _ _ _ _) =>
      Script.remove_element (DOM.by_id "typing-indicator") (Script.chatMessages p)
  | _ => Script.chatMessages p
  end.

Definition appended (p : Script.page) (i : Script.input) : list Script.node :=
  match i with
  | Script.ws_onmessage data =>
      drop (length (cleared p i)) (Script.chatMessages (Script.handleMessage data p))
  | _ => []
  end.








(** The percentage a motivation triple gives to a named motivation. *)
Definition share (m : Script.Motivation) (which : string) : Z :=
  if String.eqb which "head" then Script.head m
  else if String.eqb which "heart" then Script.heart m
  else Script.hand m.


Definition is_call_start (i : Script.input) : bool :=
  match i with
  | Script.ws_onmessage (Script.call_start _) => true
  | _ => false
  end.

(** What the inputs of a run write to the turn counter of
    [static/script.js]: "0" on a [call_start], the turn of a [message] or
    [dashboard_update] that carries one other than 0. *)
Definition turn_written (i : Script.input) : option string :=
  match i with
  | Script.ws_onmessage (Script.call_start _) => Some "0"
  | Script.ws_onmessage (Script.message _ _ _ _ t) =>
      if JS.truthy_num t then JS.show <$> t else None
  | Script.ws_onmessage (Script.dashboard_update d) =>
      if JS.truthy_num (Script.turn d) then JS.show <$> Script.turn d else None
  | _ => None
  end.

(** What an input does to the flag of the leaderboard modal, if anything. *)
Definition board_modal_effect (i : Board.input) : option bool :=
  match i with
  | Board.click_leaderboardButton => Some true
  | Board.click_modalClose => Some false
  | Board.click_leaderboardModal true => Some false
  | _ => None
  end.



Definition carries_stats (i : Part000.input) : bool :=
  match i with
  | Part000.ws_onmessage (Chat.session_start _ (Some _)) => true
  | Part000.ws_onmessage (Chat.session_end d) =>
      match Chat.end_stats d with Some _ => true | None => false end
  | _ => false
  end.

(** The session ids announced by the [session_start] events of a run. *)
Definition session_ids (l : list Part000.input) : list Z :=
  omap (fun i => match i with
                 | Part000.ws_onmessage (Chat.session_start n _) => Some n
                 | _ => None
                 end) l.

(** The second chat client: what an input does to the flag of the
    insights modal, if anything. *)
Definition modal_effect (i : Part001.input) : option bool :=
  match i with
  | Part001.click_insightsButton => Some true
  | Part001.click_modalClose => Some false
  | Part001.click_insightsModal true => Some false
  | _ => None
  end.

(** A page of the second chat client right after the script has run. *)
Definition loaded001 : Part001.page :=
  {| Part001.ws := Some Chat.CONNECTING; Part001.sessionCount := 0;
     Part001.startButton_disabled := true;
     Part001.sessionCountEl := "0"; Part001.convertedCountEl := "0";
     Part001.stayedCountEl := "0"; Part001.maybeCountEl := "0";
     Part001.chatMessages := [Chat.welcome_message]; Part001.sent := [];
     Part001.insightsModal_active := false;
     Part001.insightsContent := Part001.static_content |}.

End Reading.

(** * Theorems *)

(** ** Facts about the JavaScript fragment *)

Module JSFacts.
Import JS.

Lemma to_int_not_nil (z : Z) :
  Z.to_int z <> Decimal.Pos Decimal.Nil /\ Z.to_int z <> Decimal.Neg Decimal.Nil.
Proof.
  destruct z as [|q|q]; simpl; split; try discriminate; intros [= E];
    (generalize (DecimalPos.Unsigned.of_to q); rewrite E; discriminate).
Qed.

Lemma show_inj (a b : Z) : show a = show b -> a = b.
Proof.
  unfold show. intros E.
  apply DecimalZ.to_int_inj.
  destruct (to_int_not_nil a) as [A1 A2], (to_int_not_nil b) as [B1 B2].
  assert (Some (Z.to_int a) = Some (Z.to_int b)) as [= ->]; [|reflexivity].
  rewrite <- (NilZero.isi _ A1 A2), <- (NilZero.isi _ B1 B2). now rewrite E.
Qed.

Lemma length_app (s t : string) :
  String.length (s +:+ t) = (String.length s + String.length t)%nat.
Proof. induction s as [|c s IH]; simpl; [reflexivity | now rewrite IH]. Qed.

Lemma app_inj_r (t s1 s2 : string) : s1 +:+ t = s2 +:+ t -> s1 = s2.
Proof.
  revert s2. induction s1 as [|c s1 IH]; intros [|c' s2] E.
  - reflexivity.
  - apply (f_equal String.length) in E. rewrite !length_app in E.
    simpl in E. lia.
  - apply (f_equal String.length) in E. rewrite !length_app in E.
    simpl in E. lia.
  - cbn in E. injection E as -> E. f_equal. now apply IH.
Qed.

Lemma show_suffix_inj (t : string) (a b : Z) : show a +:+ t = show b +:+ t -> a = b.
Proof. intros E. apply show_inj. exact (app_inj_r _ _ _ E). Qed.

End JSFacts.

(** ** Facts about the lookups *)

Module DOMFacts.
Import DOM.




End DOMFacts.

(** ** [getDominantMotivation] *)

Module DominantFacts.
Import Script.

(** C9. [getDominantMotivation] is a total function of the triple and, on
    every triple, returns head when head is at least heart and hand,
    otherwise heart when heart is at least hand, otherwise hand. *)
Theorem getDominantMotivation_tie_break (m : Motivation) :
  getDominantMotivation m = Spec.dominant (head m) (heart m) (hand m).
Proof.
  destruct m as [h t d]. unfold getDominantMotivation, Spec.dominant, JS.ge. simpl.
  destruct (Z.leb_spec t h), (Z.leb_spec d h), (Z.leb_spec h t), (Z.leb_spec d t);
    simpl; try reflexivity; lia.
Qed.

End DominantFacts.

(** ** [getToneClass] *)

Module ToneFacts.
Import JS Script.

Lemma toLowerCase_cons (c : ascii) (r : string) :
  nat_of_ascii c <> 226%nat ->
  toLowerCase (String c r) = String (lower c) (toLowerCase r).
Proof.
  intros Hc. cbn [toLowerCase]. destruct r as [|c1 [|c2 r']]; try reflexivity.
  destruct (Nat.eqb_spec (nat_of_ascii c) 226); [contradiction | reflexivity].
Qed.

Lemma toLowerCase_kelvin (r : string) :
  toLowerCase (kelvin +:+ r) = String "k" (toLowerCase r).
Proof. reflexivity. Qed.

Lemma toLowerCase_inv (c a : ascii) (r k : string) :
  toLowerCase (String c r) = String a k ->
  (lower c = a /\ toLowerCase r = k)
  \/ (exists r', String c r = kelvin +:+ r' /\ a = "k"%char /\ toLowerCase r' = k).
Proof.
  cbn [toLowerCase]. destruct r as [|c1 [|c2 r']].
  - intros [= <- <-]. now left.
  - intros [= <- <-]. now left.
  - destruct (Nat.eqb_spec (nat_of_ascii c) 226) as [E0|]; cbn [andb].
    + destruct (Nat.eqb_spec (nat_of_ascii c1) 132) as [E1|]; cbn [andb].
      * destruct (Nat.eqb_spec (nat_of_ascii c2) 170) as [E2|].
        -- intros [= <- <-]. right. exists r'. repeat split.
           rewrite <- (ascii_nat_embedding c), <- (ascii_nat_embedding c1),
             <- (ascii_nat_embedding c2), E0, E1, E2. reflexivity.
        -- intros [= <- <-]. now left.
      * intros [= <- <-]. now left.
    + intros [= <- <-]. now left.
Qed.

Lemma nat_of_ascii_bound (c : ascii) : (nat_of_ascii c < 256)%nat.
Proof. apply nat_ascii_bounded. Qed.

Lemma is_lower_spec (c : ascii) :
  is_lower c = true <-> (97 <= nat_of_ascii c <= 122)%nat.
Proof.
  unfold is_lower. rewrite andb_true_iff, !Nat.leb_le. reflexivity.
Qed.

Lemma is_upper_spec (c : ascii) :
  is_upper c = true <-> (65 <= nat_of_ascii c <= 90)%nat.
Proof.
  unfold is_upper. rewrite andb_true_iff, !Nat.leb_le. reflexivity.
Qed.

Lemma lower_same_letter (c a : ascii) :
  is_lower a = true -> (lower c = a <-> Spec.same_letter c a).
Proof.
  intros Ha. apply is_lower_spec in Ha. unfold lower, Spec.same_letter.
  destruct (is_upper c) eqn:Hc.
  - apply is_upper_spec in Hc. split.
    + intros <-. right; left. split; [reflexivity|].
      apply nat_ascii_embedding. lia.
    + intros [->|[[_ E]|[Hu _]]].
      * lia.
      * rewrite <- E. apply ascii_nat_embedding.
      * apply is_upper_spec in Hu. lia.
  - split.
    + intros ->. now left.
    + intros [->|[[Hu _]|[Hu _]]]; [reflexivity | discriminate |].
      apply is_upper_spec in Hu. lia.
Qed.

Lemma same_letter_not_lead (c a : ascii) :
  is_lower a = true -> Spec.same_letter c a -> nat_of_ascii c <> 226%nat.
Proof.
  intros Ha Hs. apply is_lower_spec in Ha.
  destruct Hs as [->|[[Hu _]|[Hu _]]]; [lia | |]; apply is_upper_spec in Hu; lia.
Qed.

(** On a keyword of small letters, equality after [toLowerCase] is
    case-insensitive equality. *)
Lemma toLowerCase_ci_eq (k : string) :
  all_lower k = true -> forall s, toLowerCase s = k <-> Spec.ci_eq s k.
Proof.
  intros Hk s. split.
  - revert s. induction k as [|a k IH]; intros s E.
    + destruct s as [|c [|c1 [|c2 r]]]; cbn in E; try discriminate;
        [constructor | destruct (_ && _); discriminate].
    + cbn [all_lower] in Hk. apply andb_true_iff in Hk as [Ha Hk].
      destruct s as [|c r]; [discriminate|].
      apply toLowerCase_inv in E as [[E1 E2]|(r' & -> & -> & E2)].
      * constructor; [now apply lower_same_letter | now apply IH].
      * apply Spec.ci_kelvin_l; [now left | now apply IH].
  - intros H. induction H as [|c a s t Hs H IH|a s t Hs H IH|c s t Hs H IH].
    + reflexivity.
    + cbn [all_lower] in Hk. apply andb_true_iff in Hk as [Ha Hk].
      rewrite toLowerCase_cons by (now apply (same_letter_not_lead c a)).
      f_equal; [now apply lower_same_letter | now apply IH].
    + cbn [all_lower] in Hk. apply andb_true_iff in Hk as [Ha Hk].
      rewrite toLowerCase_kelvin. f_equal; [|now apply IH].
      apply is_lower_spec in Ha.
      destruct Hs as [->|[[Hu _]|[Hu _]]]; [reflexivity | | discriminate].
      apply is_upper_spec in Hu. lia.
    + discriminate.
Qed.

Lemma keywords_lower (k : string) :
  k ∈ (positive ++ negative) -> all_lower k = true.
Proof.
  revert k. apply Forall_forall. unfold positive, negative.
  repeat constructor.
Qed.

Lemma includes_in_ci (keywords : list string) (tone : option string) :
  keywords ⊆ (positive ++ negative) ->
  includes keywords (toLowerCase <$> tone) = true <-> Spec.in_ci tone keywords.
Proof.
  intros Hsub. unfold includes, Spec.in_ci. destruct tone as [s|]; cbn.
  - rewrite bool_decide_eq_true. split.
    + intros Hin. exists s, (toLowerCase s). repeat split; [assumption|].
      apply toLowerCase_ci_eq; [|reflexivity].
      apply keywords_lower, Hsub, Hin.
    + intros (s' & k & [= <-] & Hin & Hci).
      apply toLowerCase_ci_eq in Hci; [now subst | ].
      apply keywords_lower, Hsub, Hin.
  - split; [discriminate | intros (s & k & [=] & _)].
Qed.

Lemma positive_negative_disjoint (k : string) : k ∈ positive -> k ∈ negative -> False.
Proof.
  revert k. apply (Forall_forall (fun k => k ∉ negative)).
  apply (bool_decide_unpack (Forall (fun k => k ∉ negative) positive)).
  vm_compute. exact I.
Qed.

(** C5. Tone classification is a lookup in two fixed keyword sets: a tone
    is classified positive exactly when it is, up to case, one of the six
    positive keywords, negative exactly when it is, up to case, one of the
    six negative keywords, and neutral exactly when it is neither; an
    absent tone is neutral, and there is no fourth class. *)
Theorem getToneClass_keyword_lookup (tone : option string) :
  (getToneClass tone = "positive" <-> Spec.in_ci tone positive)
  /\ (getToneClass tone = "negative" <-> Spec.in_ci tone negative)
  /\ (getToneClass tone = "neutral"
      <-> ~ Spec.in_ci tone positive /\ ~ Spec.in_ci tone negative)
  /\ getToneClass None = "neutral"
  /\ (getToneClass tone = "positive" \/ getToneClass tone = "negative"
      \/ getToneClass tone = "neutral").
Proof.
  assert (Hp : positive ⊆ (positive ++ negative))
    by (intros x Hx; apply elem_of_app; now left).
  assert (Hn : negative ⊆ (positive ++ negative))
    by (intros x Hx; apply elem_of_app; now right).
  pose proof (includes_in_ci positive tone Hp) as P.
  pose proof (includes_in_ci negative tone Hn) as N.
  assert (D : Spec.in_ci tone positive -> Spec.in_ci tone negative -> False).
  { intros (s & k & -> & Hk & Hc) (s' & k' & [= <-] & Hk' & Hc').
    apply toLowerCase_ci_eq in Hc; [|now apply keywords_lower, Hp].
    apply toLowerCase_ci_eq in Hc'; [|now apply keywords_lower, Hn].
    subst. eauto using positive_negative_disjoint. }
  unfold getToneClass.
  destruct (includes positive _) eqn:E1; [|destruct (includes negative _) eqn:E2].
  - assert (Spec.in_ci tone positive) by (now apply P).
    repeat split; try (intros; discriminate); try (intros; tauto).
  - assert (~ Spec.in_ci tone positive) by (intros X; apply P in X; discriminate).
    assert (Spec.in_ci tone negative) by (now apply N).
    repeat split; try (intros; discriminate); try (intros; tauto).
  - assert (~ Spec.in_ci tone positive) by (intros X; apply P in X; discriminate).
    assert (~ Spec.in_ci tone negative) by (intros X; apply N in X; discriminate).
    repeat split; try (intros; discriminate); try (intros; tauto).
Qed.

End ToneFacts.

(** ** The dashboard *)

Module DashboardFacts.
Import JS Script Sample JSFacts.

Lemma percent_inj (a b : Z) : percent a = percent b -> a = b.
Proof. apply show_suffix_inj. Qed.

Lemma dash_dashboard_update (data : DashboardUpdate) (p : page) :
  dash (handleMessage (dashboard_update data) p) = renderDashboard data (dash p).
Proof.
  cbn [handleMessage]. unfold updateDashboard.
  destruct (truthy_num (turn data)); reflexivity.
Qed.

Lemma currentFraudRisk_dashboard_update (data : DashboardUpdate) (p : page) :
  currentFraudRisk (handleMessage (dashboard_update data) p)
  = or_num (fraud_likelihood (confidence data)) 5.
Proof.
  cbn [handleMessage]. unfold updateDashboard.
  destruct (truthy_num (turn data)); reflexivity.
Qed.

(** *** The fraud-risk fallback *)

(** C1, counterexample. An update without a fraud likelihood shows a fraud
    risk that is not the one a reset shows. *)
Lemma fraud_fallback_is_not_reset_default :
  fraud_likelihood (confidence no_opinion) = None
  /\ textContent (fraudRiskValue (dash (handleMessage (dashboard_update no_opinion) loaded)))
     <> textContent (fraudRiskValue (resetDashboard (dash loaded))).
Proof. split; [reflexivity | discriminate]. Qed.

(** C1, amended. When a dashboard update carries no fraud likelihood, the
    fraud risk shown is the fixed mid-point 5/10 (bar at 50%, level
    medium), whatever the page showed before, and the script records 5 as
    the current fraud risk; a reset shows 2/10. *)
Theorem fraud_fallback_is_mid_point (data : DashboardUpdate) (p : page) :
  fraud_likelihood (confidence data) = None ->
  let p' := handleMessage (dashboard_update data) p in
  textContent (fraudRiskValue (dash p')) = "5/10"
  /\ width (fraudRiskBar (dash p')) = "50%"
  /\ className (fraudRiskBar (dash p')) = "metric-fill fraud-fill medium"
  /\ currentFraudRisk p' = 5%Z
  /\ textContent (fraudRiskValue (resetDashboard (dash p))) = "2/10".
Proof.
  intros H p'. subst p'.
  rewrite dash_dashboard_update, currentFraudRisk_dashboard_update.
  unfold renderDashboard. rewrite H. cbn. repeat split.
Qed.

Lemma fraud_fallback_is_mid_point_witness :
  fraud_likelihood (confidence no_opinion) = None
  /\ textContent
       (fraudRiskValue (dash (handleMessage (dashboard_update no_opinion) loaded)))
     = "5/10".
Proof.
  split; [reflexivity|].
  apply (fraud_fallback_is_mid_point no_opinion loaded). reflexivity.
Defined.

(** *** The motivation percentages *)

(** C2, counterexample. After the reset of a [call_start] no reading of
    the three motivation labels sums to 100. *)
Lemma reset_percentages_do_not_sum_to_100 :
  ~ exists h t n : Z,
      shows_motivation (dash (handleMessage (call_start second_call) loaded)) h t n
      /\ (h + t + n = 100)%Z.
Proof.
  intros (h & t & n & (H1 & _ & H2 & _ & H3 & _) & Hsum).
  apply (percent_inj 33 h) in H1. apply (percent_inj 33 t) in H2.
  apply (percent_inj 33 n) in H3. lia.
Qed.

(** C2, amended. The motivation percentages are shown as received, without
    normalising: the three labels show the numbers the update carries, and
    each bar is given the received percentage as its width when it is not
    negative (a negative one leaves the bar as it was); an update without a
    distribution shows head 33, heart 34, hand 33, which sum to 100; a
    reset shows 33, 33, 33. *)
Theorem motivation_percentages_shown
  (data : DashboardUpdate) (start : CallStart) (p : page) :
  let before := dash p in
  let updated := dash (handleMessage (dashboard_update data) p) in
  let reset := dash (handleMessage (call_start start) p) in
  match motivation_guess (confidence data) with
  | Some m =>
      textContent (headValue updated) = percent (head m)
      /\ textContent (heartValue updated) = percent (heart m)
      /\ textContent (handValue updated) = percent (hand m)
      /\ bar_follows (headBar before) (headBar updated) (head m)
      /\ bar_follows (heartBar before) (heartBar updated) (heart m)
      /\ bar_follows (handBar before) (handBar updated) (hand m)
  | None => shows_motivation updated 33 34 33
  end
  /\ (33 + 34 + 33 = 100)%Z
  /\ shows_motivation reset 33 33 33
  /\ shows_motivation (resetDashboard (dash p)) 33 33 33.
Proof.
  cbv zeta. rewrite dash_dashboard_update.
  split; [|split; [reflexivity | repeat split]].
  unfold renderDashboard, shows_motivation, bar_follows, set_width_percent.
  destruct (motivation_guess (confidence data)) as [m|]; cbn;
    [|repeat split].
  repeat (split; [reflexivity|]).
  repeat (split; [match goal with |- context [(0 <=? ?n)%Z] =>
                    destruct (0 <=? n)%Z; reflexivity end|]).
  match goal with |- context [(0 <=? ?n)%Z] =>
    destruct (0 <=? n)%Z; reflexivity end.
Qed.

(** *** The range of the scalars *)

(** C3, counterexample. An update carrying a fraud likelihood of 15 and a
    satisfaction of 12 shows them: no value of the range 0..10 is what the
    labels show. *)
Lemma over_range_update_is_not_clamped :
  let d := dash (handleMessage (dashboard_update over_range) loaded) in
  ~ (exists v : Z, in_range v /\ shows_fraud d v)
  /\ ~ (exists v : Z, in_range v /\ shows_scalar (satisfactionBar d) (satisfactionValue d) v).
Proof.
  cbv zeta. rewrite dash_dashboard_update. split.
  - intros (v & Hv & Ht & _). apply (show_suffix_inj "/10" 15 v) in Ht.
    unfold in_range in Hv. lia.
  - intros (v & Hv & Ht & _). apply (show_inj 12 v) in Ht.
    unfold in_range in Hv. lia.
Qed.

Lemma unclamped_sentiment (metric : string) (v : Z) (bar valueEl : elem) :
  unclamped bar (fst (updateSentimentBar metric v (bar, valueEl)))
    (snd (updateSentimentBar metric v (bar, valueEl))) show v.
Proof.
  unfold unclamped, bar_follows, updateSentimentBar, set_width_percent, percent.
  cbn [fst snd]. split; [reflexivity | split; [|split]].
  - cbn. destruct (0 <=? v * 10)%Z; reflexivity.
  - intros (w & Hw & E). cbn in E. apply show_inj in E. now subst.
  - intros Hv. exists v. now split.
Qed.

(** C3, amended. The client does not clamp: whatever values the update
    carries, each label shows exactly the value carried (the fraud label
    showing 5 for an absent or zero fraud likelihood), and each bar is
    given ten times that value in percent as its width when the value is
    not negative (a negative one leaves the bar as it was); so a label
    shows a value of 0..10 exactly when the value carried is one. *)
Theorem scalars_shown_as_received (data : DashboardUpdate) (p : page) :
  let before := dash p in
  let d := dash (handleMessage (dashboard_update data) p) in
  let s := sentiment data in
  unclamped (fraudRiskBar before) (fraudRiskBar d) (fraudRiskValue d) out_of_ten
    (or_num (fraud_likelihood (confidence data)) 5)
  /\ unclamped (satisfactionBar before) (satisfactionBar d) (satisfactionValue d)
       show (satisfaction s)
  /\ unclamped (trustBar before) (trustBar d) (trustValue d) show (trust s)
  /\ unclamped (urgencyBar before) (urgencyBar d) (urgencyValue d) show (urgency s)
  /\ unclamped (frustrationBar before) (frustrationBar d) (frustrationValue d)
       show (frustration s)
  /\ unclamped (likelihoodBar before) (likelihoodBar d) (likelihoodValue d)
       show (likelihood_to_convert s).
Proof.
  cbv zeta. rewrite dash_dashboard_update.
  split; [|repeat (split; [apply unclamped_sentiment|]); apply unclamped_sentiment].
  unfold unclamped, bar_follows, out_of_ten, renderDashboard, set_width_percent,
    percent.
  cbn [fraudRiskBar fraudRiskValue textContent width set_class set_text].
  set (f := or_num (fraud_likelihood (confidence data)) 5).
  split; [reflexivity | split; [|split]].
  - destruct (0 <=? f * 10)%Z; reflexivity.
  - intros (w & Hw & E). apply (show_suffix_inj "/10") in E. now subst.
  - intros Hf. exists f. now split.
Qed.

(** *** Reset on [call_start] *)

(** What [call_start] does reset: the turn counter and the values shown by
    the dashboard, whatever the page held before; resetting twice is
    resetting once. *)
Lemma call_start_resets_display (data : CallStart) (p : page) :
  let p' := handleMessage (call_start data) p in
  turnCount p' = "0"
  /\ shows_fraud (dash p') 2
  /\ className (fraudRiskBar (dash p')) = "metric-fill fraud-fill low"
  /\ shows_motivation (dash p') 33 33 33
  /\ dominant (dash p') = []
  /\ shows_scalar (satisfactionBar (dash p')) (satisfactionValue (dash p')) 5
  /\ shows_scalar (trustBar (dash p')) (trustValue (dash p')) 5
  /\ shows_scalar (urgencyBar (dash p')) (urgencyValue (dash p')) 5
  /\ shows_scalar (frustrationBar (dash p')) (frustrationValue (dash p')) 2
  /\ shows_scalar (likelihoodBar (dash p')) (likelihoodValue (dash p')) 5
  /\ textContent (toneValue (dash p')) = "neutral"
  /\ className (toneValue (dash p')) = "tone-value neutral"
  /\ display (frustrationWarning (dash p')) = "none"
  /\ resetDashboard (resetDashboard (dash p)) = resetDashboard (dash p).
Proof. cbv zeta. repeat split. Qed.

(** C4. The defect: [call_start] leaves the script's record of the fraud
    risk and the level classes of the sentiment bars as the previous call
    set them.  After a call whose last update carried fraud likelihood 8
    and frustration 9, the next [call_start] shows 2/10 and frustration 2,
    yet the recorded fraud risk is still 8 and the frustration bar is still
    classed high; a system message about a fraud flag arriving before the
    first update of the new call then announces the old risk 8/10. *)
Theorem call_start_keeps_previous_estimates :
  let before :=
    run loaded [ws_onopen; click_startButton;
                ws_onmessage (dashboard_update alarming);
                ws_onmessage (call_end flagged)] in
  let p := step before (ws_onmessage (call_start second_call)) in
  let fresh := handleMessage (call_start second_call) loaded in
  textContent (fraudRiskValue (dash p)) = "2/10"
  /\ currentFraudRisk p = 8%Z
  /\ currentFraudRisk fresh = 2%Z
  /\ textContent (frustrationValue (dash p)) = "2"
  /\ className (frustrationBar (dash p)) = "sentiment-fill frustration-fill high"
  /\ className (frustrationBar (dash fresh)) = ""
  /\ last (chatMessages
             (step p (ws_onmessage
                        (message "system" "Agent flagged for fraud" false true None))))
     = Some (fraud_alert "Agent detected fraud risk: 8/10").
Proof. cbv zeta. repeat split. Qed.

End DashboardFacts.

(** ** The start button *)

Module StartFacts.
Import JS Script Sample.

Ltac handlers :=
  unfold handleMessage, handleCallStart, showTypingIndicator, hideTypingIndicator,
    addMessage, updateDashboard, handleCallEnd, scrollToBottom, appendChild;
  repeat case_match; try reflexivity.

Lemma sent_handleMessage (data : event) (p : page) :
  sent (handleMessage data p) = sent p.
Proof. handlers. Qed.

Lemma ws_handleMessage (data : event) (p : page) :
  ws (handleMessage data p) = ws p.
Proof. handlers. Qed.


Lemma sends_le_1 (p : page) (i : input) : sends p i <= 1.
Proof.
  unfold sends. destruct i; cbn [step];
    rewrite ?sent_handleMessage; cbn; try lia.
  destruct (startButton_disabled p); [lia|].
  unfold startNewCall. destruct (ws p) as [[]|]; cbn; try lia.
  rewrite length_app. cbn. lia.
Qed.






End StartFacts.

(** ** The typing indicator *)

Module TypingFacts.

(** *** In [static/script.js] *)

Section InScript.
Import Script.

(** [showTypingIndicator] hides, then appends the new indicator. *)
Lemma chat_showTypingIndicator (speaker : string) (p : page) :
  exists cl av,
    chatMessages (showTypingIndicator speaker p)
    = chatMessages (hideTypingIndicator p) ++ [typing_indicator cl av].
Proof. eexists _, _. reflexivity. Qed.

(** A [message] event hides the indicator, then appends a bubble (and, for
    a system message about a fraud flag, an alert): elements that are not
    indicators. *)
Lemma chat_message (speaker text : string) (b e : bool) (t : option Z) (p : page) :
  exists added,
    chatMessages (handleMessage (message speaker text b e t) p)
    = chatMessages (hideTypingIndicator p) ++ added
    /\ added <> [] /\ count_indicators added = 0.
Proof.
  cbn [handleMessage]. unfold addMessage, scrollToBottom.
  destruct (String.eqb speaker "system").
  - destruct (_ && _).
    + eexists [_; _]. destruct (JS.truthy_num t); cbn;
        rewrite <- app_assoc; repeat split; discriminate.
    + eexists [_]. destruct (JS.truthy_num t); cbn; repeat split; discriminate.
  - eexists [_]. destruct (JS.truthy_num t); cbn; repeat split; discriminate.
Qed.

End InScript.

(** *** In the first chat client *)

Section InPart000.
Import Chat Part000.





End InPart000.

(** C8. The defect: the scripts remove the indicator through
    [document.getElementById('typing-indicator')], which finds the first
    element of the document with that id, and they write event fields into
    the chat with [innerHTML] (the text of a message goes through
    [textContent]).  When a [call_start] (in the chat client, a
    [session_end]) carries a field whose markup makes two elements with
    that id, each of the next two [typing] events removes one of them and
    leaves the indicator before it in place: the chat then holds two typing
    indicators, and one is still there after the [message] event.  With a
    field of plain text the same run holds one indicator, and none after
    the message. *)
Theorem typing_indicator_outlives_message :
  let typing2 := [Script.ws_onmessage (Script.typing "agent");
                  Script.ws_onmessage (Script.typing "agent")] in
  let said := Script.ws_onmessage
                (Script.message "agent" "Hello" false false (Some 1%Z)) in
  let q := Script.run Sample.loaded
             (Script.ws_onmessage (Script.call_start Sample.smuggling_call) :: typing2) in
  let plain := Script.run Sample.loaded
                 (Script.ws_onmessage (Script.call_start Sample.second_call) :: typing2) in
  let typing2' := [Part000.ws_onmessage (Chat.typing "android");
                   Part000.ws_onmessage (Chat.typing "android")] in
  let said' := Part000.ws_onmessage (Chat.message "android" "Hello") in
  let q' := Part000.run Part000.loaded
              (Part000.ws_onmessage (Chat.session_end Sample.smuggling_end) :: typing2') in
  (Script.count_indicators (Script.chatMessages q) = 2
   /\ Script.count_indicators (Script.chatMessages (Script.step q said)) = 1)
  /\ (Script.count_indicators (Script.chatMessages plain) = 1
      /\ Script.count_indicators (Script.chatMessages (Script.step plain said)) = 0)
  /\ (Chat.count_indicators (Part000.chatMessages q') = 2
      /\ Chat.count_indicators (Part000.chatMessages (Part000.step q' said')) = 1).
Proof. cbv zeta. repeat split. Qed.

End TypingFacts.

(** ** The outcome shown at the end of a call *)

Module OutcomeFacts.
Import JS Sample.

(** The four outcomes of [static/script.js] and their markers. *)
Lemma script_markers :
  Script.outcome_emoji (Script.make_card (ended "conversion")) = Text "+"
  /\ Script.outcome_emoji (Script.make_card (ended "missed_opp")) = Text "-"
  /\ Script.outcome_emoji (Script.make_card (ended "fraud_caught")) = Text "!"
  /\ Script.outcome_emoji (Script.make_card (ended "fraud_missed")) = Text "X"
  /\ NoDup ["+"; "-"; "!"; "X"].
Proof.
  repeat split; try reflexivity.
  apply (bool_decide_unpack (NoDup ["+"; "-"; "!"; "X"])). vm_compute. exact I.
Qed.

(** Any other outcome that is not the name of a member of
    [Object.prototype] is marked [?] there. *)
Lemma script_fallback (data : Script.CallEnd) :
  Script.outcome data ∉ ["conversion"; "missed_opp"; "fraud_caught"; "fraud_missed"] ->
  Script.outcome data ∉ object_prototype ->
  Script.outcome_emoji (Script.make_card data) = Text "?".
Proof.
  intros Hk Hp. cbn [Script.make_card Script.outcome_emoji]. unfold get.
  assert (Script.outcomeEmoji !! Script.outcome data = None) as ->.
  { unfold Script.outcomeEmoji.
    rewrite !lookup_insert_ne, lookup_singleton_ne; [reflexivity | ..];
      intros E; apply Hk; rewrite <- E; set_solver. }
  rewrite bool_decide_eq_false_2 by exact Hp. reflexivity.
Qed.

(** The three outcomes of the chat client and their headings. *)
Lemma part000_headings :
  Chat.heading (Part000.make_card (session_ended "converted"))
  = Text "✅ Converted to Android!"
  /\ Chat.heading (Part000.make_card (session_ended "stayed"))
     = Text "📱 Staying with iPhone"
  /\ Chat.heading (Part000.make_card (session_ended "maybe")) = Text "🤔 Maybe Later".
Proof. repeat split. Qed.

(** Any other outcome has no entry in [outcomeText]; the heading is what
    a template shows for the failed lookup. *)
Lemma part000_no_fallback (data : Chat.SessionEnd) :
  Chat.outcome data ∉ ["converted"; "stayed"; "maybe"] ->
  Chat.heading (Part000.make_card data)
  = if bool_decide (Chat.outcome data ∈ object_prototype)
    then Native (Chat.outcome data) else Text "undefined".
Proof.
  intros Hk. cbn [Part000.make_card Chat.heading]. unfold get.
  assert (Part000.outcomeText !! Chat.outcome data = None) as ->.
  { unfold Part000.outcomeText.
    rewrite !lookup_insert_ne, lookup_singleton_ne; [reflexivity | ..];
      intros E; apply Hk; rewrite <- E; set_solver. }
  destruct (bool_decide _); reflexivity.
Qed.

(** C7. The defect: for an outcome outside the enumeration, here
    [abandoned], [static/script.js] shows the fallback marker [?], but the
    chat client has no fallback and heads the card with the text
    [undefined]; and in [static/script.js] an outcome named like a member
    of [Object.prototype], here [constructor], is not given the fallback
    either. *)
Theorem outcome_fallback_missing :
  Script.outcome_emoji (Script.make_card (ended "abandoned")) = Text "?"
  /\ Chat.heading (Part000.make_card (session_ended "abandoned")) = Text "undefined"
  /\ Chat.heading (Part001.make_card (session_ended "abandoned")) = Text "undefined"
  /\ Chat.prediction (Part000.make_card (session_ended "abandoned")) = "N/A"
  /\ Script.outcome_emoji (Script.make_card (ended "constructor")) = Native "constructor".
Proof. repeat split. Qed.

End OutcomeFacts.

(** ** The two chat clients agree *)

Module VariantFacts.
Import Chat.

Lemma handleMessage_agree (data : event) (p : Part001.page) :
  Part001.session_view (Part001.handleMessage data p)
  = Part000.handleMessage data (Part001.session_view p)
  /\ Part001.insightsModal_active (Part001.handleMessage data p)
     = Part001.insightsModal_active p
  /\ Part001.insightsContent (Part001.handleMessage data p)
     = Part001.insightsContent p.
Proof.
  destruct data as [n st|speaker|speaker text|d|ty]; cbn [Part001.handleMessage].
  - destruct st; repeat split.
  - repeat split.
  - repeat split.
  - unfold Part001.handleSessionEnd, Part000.handleMessage, Part000.handleSessionEnd.
    cbn [Part001.session_view]. destruct (end_stats d); repeat split.
  - repeat split.
Qed.

(** C10. On every event of the session protocol the handler of the second
    client does to the session part of its page what the handler of the
    first client does, and leaves the insights modal alone; the same holds
    for every other input both clients have; and the inputs only the second
    client has (the insights modal) leave the session part alone. *)
Theorem variants_agree (p : Part001.page) (data : event) (i : Part001.input) :
  (Part001.session_view (Part001.handleMessage data p)
   = Part000.handleMessage data (Part001.session_view p)
   /\ Part001.insightsModal_active (Part001.handleMessage data p)
      = Part001.insightsModal_active p
   /\ Part001.insightsContent (Part001.handleMessage data p)
      = Part001.insightsContent p)
  /\ match Part001.shared_input i with
     | Some j =>
         Part001.session_view (Part001.step p i)
         = Part000.step (Part001.session_view p) j
         /\ Part001.insightsModal_active (Part001.step p i)
            = Part001.insightsModal_active p
         /\ Part001.insightsContent (Part001.step p i) = Part001.insightsContent p
     | None => Part001.session_view (Part001.step p i) = Part001.session_view p
     end.
Proof.
  split; [apply handleMessage_agree|].
  destruct i as [| | |ev| | | | | | |b];
    cbn [Part001.shared_input Part001.step Part000.step];
    try (repeat split; fail).
  - apply handleMessage_agree.
  - destruct p as [w n dis c1 c2 c3 c4 chat out act ins].
    destruct dis; [repeat split|]. destruct w as [[]|]; repeat split.
  - destruct b; reflexivity.
Qed.

End VariantFacts.

(** * Further properties *)

(** ** The stats bar and the leaderboard of [static/script.js] *)

Module BoardFacts.
Import JS Board JSFacts.

Ltac by_style x :=
  destruct (String.eqb_spec x "closer");
  [|destruct (String.eqb_spec x "detective");
    [|destruct (String.eqb_spec x "empath");
      [|destruct (String.eqb_spec x "robot");
        [|destruct (String.eqb_spec x "gambler")]]]].

Lemma counter_set_score (st : string) (s : scores) (a : Entry) :
  counter st (set_score s a)
  = if decide (style a = st)
    then (fun _ => pointsText (or_num (total_points a) 0)) <$> counter st s
    else counter st s.
Proof.
  unfold set_score, counter.
  destruct (decide (style a = st)) as [<-|Hne].
  - by_style (style a); reflexivity.
  - by_style (style a); by_style st; first [congruence | reflexivity].
Qed.

(** X1. After [updateAgentScores] the counter of each of the five agent
    styles shows the points of the last entry of the leaderboard with that
    style (an entry without points counting as 0), or "0" when the
    leaderboard has no such entry; entries of any other style change
    nothing, and what the counters showed before does not matter. *)
Theorem updateAgentScores_last_entry_wins
  (st : string) (leaderboard : list Entry) (s : scores) :
  counter st (updateAgentScores leaderboard s)
  = (fun _ => match last (of_style st leaderboard) with
              | Some a => pointsText (or_num (total_points a) 0)
              | None => "0"
              end) <$> counter st s.
Proof.
  unfold updateAgentScores.
  induction leaderboard as [|a l IH] using rev_ind.
  - cbn. unfold counter. by_style st; reflexivity.
  - rewrite fold_left_app. cbn [fold_left]. rewrite counter_set_score, IH.
    unfold of_style. rewrite filter_app.
    destruct (decide (style a = st)) as [E|E].
    + rewrite filter_cons_True, filter_nil, last_snoc by exact E.
      destruct (counter st s); reflexivity.
    + rewrite filter_cons_False, filter_nil, app_nil_r by exact E. reflexivity.
Qed.

Lemma show_negative (q : positive) : exists r, show (Z.neg q) = String "-" r.
Proof. eexists. reflexivity. Qed.

Lemma show_nonnegative_head (n : Z) (r : string) :
  (0 <= n)%Z -> show n <> String "-" r.
Proof.
  intros Hn E. destruct n as [|q|q]; [discriminate | | lia].
  unfold show in E. cbn in E.
  destruct (Pos.to_uint q); discriminate.
Qed.

Lemma show_not_plus (n : Z) (r : string) : show n <> String "+" r.
Proof.
  destruct n as [|q|q]; [discriminate | | discriminate].
  unfold show. cbn. destruct (Pos.to_uint q); discriminate.
Qed.

Lemma pointsText_inj (a b : Z) : pointsText a = pointsText b -> a = b.
Proof.
  unfold pointsText, ge.
  destruct (Z.leb_spec 0 a), (Z.leb_spec 0 b); intros E.
  - cbn in E. injection E as E. now apply show_inj.
  - exfalso. cbn in E. symmetry in E. now apply show_not_plus in E.
  - exfalso. cbn in E. now apply show_not_plus in E.
  - now apply show_inj.
Qed.

(** X2. The text of a score counter determines the points: different
    points give different texts, and no points give the text "0" that
    stands for a style without entry. *)
Theorem pointsText_faithful (a b : Z) :
  (pointsText a = pointsText b <-> a = b) /\ pointsText a <> "0".
Proof.
  split; [split; [apply pointsText_inj | now intros ->] |].
  unfold pointsText, ge. destruct (Z.leb_spec 0 a); [discriminate|].
  destruct a as [|q|q]; try lia. discriminate.
Qed.

Lemma rankClass_position (i : nat) :
  rankClass (Z.of_nat i + 1)
  = match i with 0 => "gold" | 1 => "silver" | 2 => "bronze" | _ => "" end.
Proof.
  destruct i as [|[|[|i]]]; try reflexivity.
  unfold rankClass.
  destruct (Z.eqb_spec (Z.of_nat (S (S (S i))) + 1) 1); [lia|].
  destruct (Z.eqb_spec (Z.of_nat (S (S (S i))) + 1) 2); [lia|].
  destruct (Z.eqb_spec (Z.of_nat (S (S (S i))) + 1) 3); [lia|].
  reflexivity.
Qed.

(** X3. [renderLeaderboard] shows the no-data notice exactly for a missing
    or empty leaderboard; otherwise it shows one row per entry in the order
    received (the client does not sort), the row at position i numbered
    i+1, the first three rows classed gold, silver and bronze and no row
    after them. *)
Theorem renderLeaderboard_rows (data : option (list Entry)) (i : nat) :
  (renderLeaderboard data = no_data <-> data = None \/ data = Some [])
  /\ match data with
     | Some (e :: l) =>
         exists r,
           renderLeaderboard data = rows r
           /\ length r = length (e :: l)
           /\ item_class <$> r
              = (fun a => "leaderboard-item " +:+ style a) <$> (e :: l)
           /\ rank <$> r !! i
              = (fun _ => "#" +:+ show (Z.of_nat i + 1)) <$> (e :: l) !! i
           /\ rank_class <$> r !! i
              = (fun _ => match i with
                          | 0 => "gold" | 1 => "silver" | 2 => "bronze" | _ => ""
                          end) <$> (e :: l) !! i
     | _ => True
     end.
Proof.
  split.
  - destruct data as [[|e l]|]; cbn; split; try tauto; try discriminate.
    intros [[=]|[=]].
  - destruct data as [[|e l]|]; try exact I.
    exists (imap make_row (e :: l)). repeat split.
    + apply length_imap.
    + rewrite fmap_imap. apply imap_const.
    + rewrite list_lookup_imap. destruct ((e :: l) !! i); reflexivity.
    + rewrite list_lookup_imap. destruct ((e :: l) !! i); [|reflexivity].
      cbn. now rewrite rankClass_position.
Qed.

Lemma last_warmup_snoc (l : list input) (i : input) :
  last_warmup (l ++ [i])
  = match i with warmup_response m => Some m | _ => last_warmup l end.
Proof.
  unfold last_warmup. rewrite omap_app.
  destruct i; cbn; rewrite ?app_nil_r; try reflexivity. apply last_snoc.
Qed.

(** X4. The warm-up mode and its button follow the server: after any run
    of inputs they show the mode carried by the last answer about the
    warm-up mode, and are as they were when there was none; a click on the
    button changes nothing by itself. *)
Theorem warmup_follows_last_response (b : board) (l : list input) :
  match last_warmup l with
  | Some m =>
      warmupMode (run b l) = m
      /\ warmupButton_text (run b l)
         = "Warmup Mode: " +:+ (if m then "ON" else "OFF")
      /\ warmupButton_class (run b l)
         = "warmup-button " +:+ (if m then "active" else "")
  | None =>
      warmupMode (run b l) = warmupMode b
      /\ warmupButton_text (run b l) = warmupButton_text b
      /\ warmupButton_class (run b l) = warmupButton_class b
  end.
Proof.
  induction l as [|i l IH] using rev_ind; [repeat split|].
  unfold run in *. rewrite fold_left_app, last_warmup_snoc. cbn [fold_left].
  destruct i as [lb|m| | | |d| | |[]]; try exact IH; try (repeat split; fail).
Qed.

End BoardFacts.

(** ** The chat of [static/script.js] *)

Module ChatFacts.
Import JS Script Reading Sample.


Lemma remove_element_cons (q : DOM.selector) (n : node) (r : list node) :
  remove_element q (n :: r)
  = if DOM.matches q (fst (own n)) (snd (own n)) then r
    else match DOM.strip_forest q (inner_of n) with
         | Some i => with_inner n i :: r
         | None => n :: remove_element q r
         end.
Proof. reflexivity. Qed.

Lemma Forall_remove_element (P : node -> Prop) (q : DOM.selector) (l : list node) :
  (forall n i, P n -> P (with_inner n i)) ->
  Forall P l -> Forall P (remove_element q l).
Proof.
  intros HP. induction 1 as [|n l Hn Hl IH]; [constructor|].
  rewrite remove_element_cons. destruct (DOM.matches _ _ _); [exact Hl|].
  destruct (DOM.strip_forest _ _); constructor; auto.
Qed.





(** Every input leaves the chat as [cleared] followed by [appended]. *)
Lemma chat_step (p : page) (i : input) :
  chatMessages (step p i) = cleared p i ++ appended p i.
Proof.
  destruct i as [| | |data| |]; cbn [step appended cleared];
    try (now rewrite app_nil_r).
  - destruct data as [d|speaker|speaker text b e t|d|d|ty]; cbn [cleared].
    + change (chatMessages (handleMessage (call_start d) p))
        with (remove_element (DOM.by_class "welcome-message") (chatMessages p) ++
              [call_divider (show (call_id d)) (style (agent d))
                 (display_name (agent_info d)) (warmup_mode d) (divider_html d)]).
      now rewrite drop_app_length.
    + change (chatMessages (handleMessage (typing speaker) p))
        with (remove_element (DOM.by_id "typing-indicator") (chatMessages p) ++
              [typing_indicator ("typing-indicator " +:+ speaker)
                 (make_avatar speaker p)]).
      now rewrite drop_app_length.
    + destruct (TypingFacts.chat_message speaker text b e t p) as (added & E & _).
      rewrite E. now rewrite drop_app_length.
    + replace (chatMessages (handleMessage (dashboard_update d) p))
        with (chatMessages p)
        by (unfold handleMessage, updateDashboard; now destruct (truthy_num _)).
      now rewrite drop_all, app_nil_r.
    + change (chatMessages (handleMessage (call_end d) p))
        with (chatMessages p ++ [outcome_card (make_card d) (card_html d)]).
      now rewrite drop_app_length.
    + cbn. now rewrite drop_all, app_nil_r.
  - destruct (startButton_disabled p); [now rewrite app_nil_r|].
    unfold startNewCall. destruct (ws p) as [[]|]; now rewrite app_nil_r.
Qed.

(** What a [message] event appends. *)
Lemma appended_message (speaker text : string) (b e : bool) (t : option Z) (p : page) :
  appended p (ws_onmessage (message speaker text b e t))
  = if String.eqb speaker "system"
    then system_message text ::
         (if str_includes text "flagged for fraud" && ge (currentFraudRisk p) 5
          then [fraud_alert ("Agent detected fraud risk: " +:+
                             show (currentFraudRisk p) +:+ "/10")]
          else [])
    else [message_bubble
            ("message " +:+ speaker +:+ (if b then " bounce" else ""))
            (make_avatar speaker p) text].
Proof.
  cbn [appended cleared].
  assert (E : chatMessages (handleMessage (message speaker text b e t) p)
              = remove_element (DOM.by_id "typing-indicator") (chatMessages p) ++
                (if String.eqb speaker "system"
                 then system_message text ::
                      (if str_includes text "flagged for fraud"
                          && ge (currentFraudRisk p) 5
                       then [fraud_alert ("Agent detected fraud risk: " +:+
                                          show (currentFraudRisk p) +:+ "/10")]
                       else [])
                 else [message_bubble
                         ("message " +:+ speaker +:+ (if b then " bounce" else ""))
                         (make_avatar speaker p) text])).
  { cbn [handleMessage]. unfold addMessage, scrollToBottom.
    destruct (String.eqb speaker "system").
    - destruct (_ && _); destruct (truthy_num t); cbn;
        rewrite <- ?app_assoc; reflexivity.
    - destruct (truthy_num t); reflexivity. }
  rewrite E. now rewrite drop_app_length.
Qed.

(** What the other inputs append. *)
Lemma appended_not_message (p : page) (i : input) :
  is_message i = false ->
  appended p i
  = match i with
    | ws_onmessage (call_start d) =>
        [call_divider (show (call_id d)) (style (agent d))
           (display_name (agent_info d)) (warmup_mode d) (divider_html d)]
    | ws_onmessage (typing speaker) =>
        [typing_indicator ("typing-indicator " +:+ speaker) (make_avatar speaker p)]
    | ws_onmessage (call_end d) => [outcome_card (make_card d) (card_html d)]
    | _ => []
    end.
Proof.
  intros Hi.
  destruct i as [| | |data| |]; try reflexivity.
  destruct data as [d|speaker|speaker text b e t|d|d|ty]; try discriminate;
    cbn [appended cleared].
  - change (chatMessages (handleMessage (call_start d) p))
      with (remove_element (DOM.by_class "welcome-message") (chatMessages p) ++
            [call_divider (show (call_id d)) (style (agent d))
               (display_name (agent_info d)) (warmup_mode d) (divider_html d)]).
    now rewrite drop_app_length.
  - change (chatMessages (handleMessage (typing speaker) p))
      with (remove_element (DOM.by_id "typing-indicator") (chatMessages p) ++
            [typing_indicator ("typing-indicator " +:+ speaker)
               (make_avatar speaker p)]).
    now rewrite drop_app_length.
  - replace (chatMessages (handleMessage (dashboard_update d) p))
      with (chatMessages p)
      by (unfold handleMessage, updateDashboard; now destruct (truthy_num _)).
    now rewrite drop_all.
  - change (chatMessages (handleMessage (call_end d) p))
      with (chatMessages p ++ [outcome_card (make_card d) (card_html d)]).
    now rewrite drop_app_length.
  - cbn. now rewrite drop_all.
Qed.

Lemma appended_other (p : page) (i : input) :
  is_message i = false ->
  Forall (fun n => match n with system_message _ | fraud_alert _
                               | message_bubble _ _ _ | welcome_message => False
                   | _ => True end) (appended p i).
Proof.
  intros Hi. rewrite (appended_not_message p i Hi).
  destruct i as [| | |[]| |]; repeat constructor.
Qed.









(** X6. No alert announces a low risk: on a page whose fraud alerts all
    announce a risk of 5 or more, every fraud alert in the chat after any
    run of inputs does. *)
Theorem alerts_announce_5_or_more (p : page) (l : list input) :
  Forall announces_5_or_more (chatMessages p) ->
  Forall announces_5_or_more (chatMessages (run p l)).
Proof.
  revert p. induction l as [|i l IH]; intros p H; [exact H|].
  cbn. apply IH. rewrite chat_step. apply Forall_app. split.
  - destruct i as [| | |[]| |]; cbn [cleared]; try exact H;
      (apply Forall_remove_element; [|exact H]); intros []; cbn; auto.
  - destruct (is_message i) eqn:Hi.
    + destruct i as [| | |[d|s|s t b e tn|d|d|ty]| |]; try discriminate.
      rewrite appended_message. destruct (String.eqb s "system").
      * constructor; [exact I|].
        destruct (str_includes _ _ && ge _ _) eqn:E; [|constructor].
        apply andb_true_iff in E as [_ E]. unfold ge in E. apply Z.leb_le in E.
        constructor; [|constructor]. cbn. eauto.
      * repeat constructor.
    + eapply Forall_impl; [apply appended_other, Hi|].
      intros []; cbn; tauto.
Qed.

Lemma alerts_announce_5_or_more_witness :
  Forall announces_5_or_more (chatMessages loaded)
  /\ Forall announces_5_or_more
       (chatMessages
          (run loaded
             [ws_onmessage (dashboard_update alarming);
              ws_onmessage (message "system" "Agent flagged for fraud" false true None)])).
Proof.
  assert (H : Forall announces_5_or_more (chatMessages loaded))
    by (repeat constructor).
  split; [exact H|].
  apply (alerts_announce_5_or_more loaded _ H).
Defined.

Lemma count_alerts_app (l k : list node) :
  count_alerts (l ++ k) = count_alerts l + count_alerts k.
Proof. unfold count_alerts. now rewrite filter_app, length_app. Qed.

Lemma count_alerts_cons (n : node) (l : list node) :
  count_alerts (n :: l) = (if is_fraud_alert n then 1 else 0) + count_alerts l.
Proof.
  unfold count_alerts. destruct (is_fraud_alert n) eqn:E.
  - now rewrite filter_cons_True.
  - rewrite filter_cons_False by congruence. reflexivity.
Qed.

(** A lookup that does not match an alert takes none from the chat. *)
Lemma count_alerts_remove_element (q : DOM.selector) (l : list node) :
  (forall n, is_fraud_alert n = true ->
             DOM.matches q (fst (own n)) (snd (own n)) = false) ->
  count_alerts (remove_element q l) = count_alerts l.
Proof.
  intros Hq. induction l as [|n l IH]; [reflexivity|].
  rewrite remove_element_cons.
  destruct (DOM.matches _ _ _) eqn:E.
  - rewrite count_alerts_cons. destruct (is_fraud_alert n) eqn:Ha; [|reflexivity].
    rewrite (Hq n Ha) in E. discriminate.
  - destruct (DOM.strip_forest _ _) as [i|].
    + rewrite !count_alerts_cons. now destruct n.
    + rewrite !count_alerts_cons. now rewrite IH.
Qed.

Lemma count_alerts_cleared (p : page) (i : input) :
  count_alerts (cleared p i) = count_alerts (chatMessages p).
Proof.
  destruct i as [| | |[]| |]; cbn [cleared]; try reflexivity;
    apply count_alerts_remove_element; intros [] Ha; try discriminate;
    now vm_compute.
Qed.

(** X7. One fraud alert is added to the chat by a [message] event whose
    speaker is [system] and whose text contains "flagged for fraud" while
    the recorded fraud risk is at least 5; no alert is added by any other
    input, and none is ever removed. *)
Theorem alert_added_exactly_when (p : page) (i : input) :
  count_alerts (chatMessages (step p i))
  = count_alerts (chatMessages p)
    + match i with
      | ws_onmessage (message speaker text _ _ _) =>
          if String.eqb speaker "system"
             && str_includes text "flagged for fraud"
             && ge (currentFraudRisk p) 5
          then 1 else 0
      | _ => 0
      end.
Proof.
  rewrite chat_step, count_alerts_app, count_alerts_cleared. f_equal.
  destruct (is_message i) eqn:Hi.
  - destruct i as [| | |[d|s|s t b e tn|d|d|ty]| |]; try discriminate.
    rewrite appended_message. destruct (String.eqb s "system"); [|reflexivity].
    cbn [andb]. destruct (_ && _); reflexivity.
  - assert (H : count_alerts (appended p i) = 0).
    { pose proof (appended_other p i Hi) as H. unfold count_alerts.
      induction H as [|n k Hn _ IH]; [reflexivity|].
      rewrite filter_cons_False; [exact IH|]. destruct n; cbn in *; congruence. }
    rewrite H. destruct i as [| | |[]| |]; try reflexivity; discriminate.
Qed.








Lemma style_step (p : page) (i : input) :
  currentAgentStyle (step p i)
  = match i with
    | ws_onmessage (call_start d) => Some (style (agent d))
    | _ => currentAgentStyle p
    end.
Proof.
  destruct i as [| | |data| |]; try reflexivity.
  - destruct data; try reflexivity; cbn [step]; StartFacts.handlers.
  - cbn. destruct (startButton_disabled p); [reflexivity|].
    unfold startNewCall. destruct (ws p) as [[]|]; reflexivity.
Qed.

Lemma style_run (p : page) (l : list input) :
  Forall (fun i => is_call_start i = false) l ->
  currentAgentStyle (run p l) = currentAgentStyle p.
Proof.
  revert p. induction l as [|i l IH]; intros p H; [reflexivity|].
  apply Forall_cons in H as [Hi Hl].
  change (run p (i :: l)) with (run (step p i) l). rewrite IH by exact Hl.
  rewrite style_step. destruct i as [| | |[]| |]; try reflexivity; discriminate.
Qed.

(** X9. The agent's avatar follows the call: after a [call_start] naming a
    non-empty agent style, and until the next [call_start], every message
    of the agent is appended as a bubble with the image of that style, and
    every typing indicator of the agent carries it too. *)
Theorem agent_avatar_follows_call
  (p : page) (d : CallStart) (l : list input)
  (text : string) (b e : bool) (t : option Z) :
  style (agent d) <> "" ->
  Forall (fun i => is_call_start i = false) l ->
  let q := run (step p (ws_onmessage (call_start d))) l in
  last (chatMessages (step q (ws_onmessage (message "agent" text b e t))))
  = Some (message_bubble ("message agent" +:+ (if b then " bounce" else ""))
            (avatar_img (style (agent d))) text)
  /\ last (chatMessages (step q (ws_onmessage (typing "agent"))))
     = Some (typing_indicator "typing-indicator agent" (avatar_img (style (agent d)))).
Proof.
  intros Hs Hl q.
  assert (Hq : currentAgentStyle q = Some (style (agent d))).
  { subst q. rewrite style_run by exact Hl. now rewrite style_step. }
  assert (Ha : make_avatar "agent" q = avatar_img (style (agent d))).
  { unfold make_avatar. rewrite Hq. cbn.
    destruct (style (agent d)); [contradiction | reflexivity]. }
  split.
  - rewrite chat_step, appended_message. cbn [String.eqb Ascii.eqb].
    rewrite Ha. apply last_snoc.
  - rewrite chat_step. cbn [appended cleared].
    change (chatMessages (handleMessage (typing "agent") q))
      with (remove_element (DOM.by_id "typing-indicator") (chatMessages q) ++
            [typing_indicator "typing-indicator agent" (make_avatar "agent" q)]).
    rewrite drop_app_length, Ha. apply last_snoc.
Qed.

Lemma agent_avatar_follows_call_witness :
  style (agent second_call) <> ""
  /\ last (chatMessages
             (step (run (step loaded (ws_onmessage (call_start second_call)))
                      [ws_onmessage (typing "agent")])
                (ws_onmessage (message "agent" "Hello" false false (Some 1%Z)))))
     = Some (message_bubble "message agent" (avatar_img "detective") "Hello").
Proof.
  assert (Hs : style (agent second_call) <> "") by discriminate.
  split; [exact Hs|].
  apply (agent_avatar_follows_call loaded second_call
           [ws_onmessage (typing "agent")] "Hello" false false (Some 1%Z) Hs).
  repeat constructor.
Defined.









End ChatFacts.

(** ** Frames sent by [static/script.js] *)

Module SendFacts.
Import JS Script Reading Sample StartFacts.

Lemma sent_step (p : page) (i : input) :
  sent (step p i) = sent p
  \/ (sent (step p i) = sent p ++ [new_call]
      /\ ws p = Some OPEN /\ startButton_disabled p = false
      /\ startButton_disabled (step p i) = true /\ reenables i = false).
Proof.
  destruct i as [| | |data| |]; cbn [step]; rewrite ?sent_handleMessage;
    try (now left).
  destruct (startButton_disabled p) eqn:Hd; [now left|].
  unfold startNewCall. destruct (ws p) as [[]|]; try (now left).
  right. repeat split.
Qed.

Lemma ws_step (p : page) (i : input) :
  i <> ws_onopen -> ws p <> Some OPEN -> ws (step p i) <> Some OPEN.
Proof.
  intros Hi Hw. destruct i as [| | |data| |]; cbn [step];
    rewrite ?ws_handleMessage; try assumption; try discriminate;
    try contradiction.
  destruct (startButton_disabled p); [assumption|].
  unfold startNewCall. destruct (ws p) as [[]|] eqn:E; try assumption; congruence.
Qed.

(** X10. Nothing is sent on a socket that is not open: from a page whose
    socket is not open (none yet, connecting, or closed), no run of inputs
    without an [onopen] sends a frame, whatever is clicked and whatever
    events arrive. *)
Theorem nothing_sent_until_open (p : page) (l : list input) :
  ws p <> Some OPEN ->
  Forall (fun i => i <> ws_onopen) l ->
  sent (run p l) = sent p.
Proof.
  revert p. induction l as [|i l IH]; intros p Hw Hl; [reflexivity|].
  apply Forall_cons in Hl as [Hi Hl].
  change (run p (i :: l)) with (run (step p i) l).
  rewrite IH; [|now apply ws_step|exact Hl].
  destruct (sent_step p i) as [E|(_ & E & _)]; [exact E | contradiction].
Qed.

Lemma nothing_sent_until_open_witness :
  ws (step loaded ws_onclose) <> Some OPEN
  /\ sent (run (step loaded ws_onclose)
             [ws_onmessage (call_end flagged); click_startButton;
              timer_connect; click_startButton])
     = sent (step loaded ws_onclose).
Proof.
  assert (H : ws (step loaded ws_onclose) <> Some OPEN) by discriminate.
  split; [exact H|].
  apply (nothing_sent_until_open _ _ H).
  repeat constructor; discriminate.
Defined.



End SendFacts.

(** ** The start button of the chat clients *)

Module ChatStartFacts.
Import Chat Part000 Reading.

Ltac handlers :=
  unfold handleMessage, handleSessionStart, showTypingIndicator, hideTypingIndicator,
    addMessage, handleSessionEnd, scrollToBottom, appendChild;
  repeat case_match; try reflexivity.








End ChatStartFacts.

(** ** More on the dashboard and the outcome card of [static/script.js] *)

Module DisplayFacts.
Import JS Script Reading Sample JSFacts DashboardFacts.

(** X13. A dashboard update never shows a fraud risk of 0: a fraud
    likelihood of 0 is treated like an absent one and shown as 5/10, any
    other is shown as it is; the risk recorded for the alert is the one the
    label shows, and the bar is given ten times it in percent as its width
    when it is not negative. *)
Theorem fraud_risk_zero_shown_as_five (data : DashboardUpdate) (p : page) :
  let p' := handleMessage (dashboard_update data) p in
  textContent (fraudRiskValue (dash p')) <> out_of_ten 0
  /\ currentFraudRisk p' <> 0%Z
  /\ textContent (fraudRiskValue (dash p')) = out_of_ten (currentFraudRisk p')
  /\ bar_follows (fraudRiskBar (dash p)) (fraudRiskBar (dash p'))
       (currentFraudRisk p' * 10)
  /\ currentFraudRisk p'
     = match fraud_likelihood (confidence data) with
       | Some 0%Z | None => 5%Z
       | Some v => v
       end.
Proof.
  cbv zeta. rewrite dash_dashboard_update, currentFraudRisk_dashboard_update.
  assert (E : or_num (fraud_likelihood (confidence data)) 5
              = match fraud_likelihood (confidence data) with
                | Some 0%Z | None => 5%Z
                | Some v => v
                end)
    by (unfold or_num; destruct (fraud_likelihood (confidence data)) as [[]|];
        reflexivity).
  assert (N : or_num (fraud_likelihood (confidence data)) 5 <> 0%Z).
  { rewrite E. destruct (fraud_likelihood (confidence data)) as [[]|]; discriminate. }
  unfold out_of_ten, bar_follows, renderDashboard, set_width_percent, percent.
  cbn [fraudRiskBar fraudRiskValue textContent width set_class set_text].
  split; [|split; [exact N | split; [reflexivity | split; [|exact E]]]].
  - intros H. apply (show_suffix_inj "/10" _ 0) in H. congruence.
  - destruct (0 <=? _)%Z; reflexivity.
Qed.

(** X14. The frustration warning follows the frustration of the update: it
    is shown exactly from 6 on, classed critical from 8 on and warning
    below, and then the frustration bar is never classed low (and is
    classed high under a critical warning); below 6 the warning is hidden
    and keeps the class it had. *)
Theorem frustration_warning_thresholds (data : DashboardUpdate) (p : page) :
  let d := dash (handleMessage (dashboard_update data) p) in
  let f := frustration (sentiment data) in
  if (6 <=? f)%Z then
    display (frustrationWarning d) = "flex"
    /\ className (frustrationWarning d)
       = "frustration-warning " +:+ (if (8 <=? f)%Z then "critical" else "warning")
    /\ className (frustrationBar d)
       = "sentiment-fill frustration-fill "
         +:+ (if (7 <=? f)%Z then "high" else "medium")
  else
    display (frustrationWarning d) = "none"
    /\ className (frustrationWarning d) = className (frustrationWarning (dash p)).
Proof.
  cbv zeta. rewrite dash_dashboard_update.
  unfold renderDashboard, updateSentimentBar, level, or_num, ge.
  cbn [frustrationWarning frustrationBar fst snd String.eqb].
  set (f := frustration (sentiment data)).
  assert (Hf : (if (f =? 0)%Z then 0%Z else f) = f)
    by (destruct (Z.eqb_spec f 0); congruence).
  rewrite Hf.
  destruct (Z.leb_spec 6 f), (Z.leb_spec 8 f), (Z.leb_spec 7 f), (Z.leb_spec 4 f);
    try lia; repeat split.
Qed.

(** X15. The motivation highlighted after an update is a largest one: the
    single highlighted item is the one [getDominantMotivation] names, its
    share is the maximum of the three shares shown, and an update without a
    distribution highlights heart. *)
Theorem dominant_is_largest (data : DashboardUpdate) (p : page) :
  let d := dash (handleMessage (dashboard_update data) p) in
  let m := or_motivation (motivation_guess (confidence data)) in
  dominant d = [getDominantMotivation m]
  /\ share m (getDominantMotivation m) = Z.max (head m) (Z.max (heart m) (hand m))
  /\ match motivation_guess (confidence data) with
     | Some _ => True
     | None => dominant d = ["heart"]
     end.
Proof.
  cbv zeta. rewrite dash_dashboard_update. split; [reflexivity|]. split.
  - destruct (or_motivation _) as [h t n].
    unfold getDominantMotivation, share, ge. cbn [head heart hand].
    destruct (Z.leb_spec t h), (Z.leb_spec n h), (Z.leb_spec h t), (Z.leb_spec n t);
      cbn; lia.
  - destruct (motivation_guess (confidence data)) eqn:E; [exact I|].
    unfold renderDashboard. rewrite E. reflexivity.
Qed.

(** X16. The outcome card and the stats bar write points the same way: the
    card shows the text of the stats bar followed by " pts", is classed
    positive exactly for points of 0 or more, and cards of different points
    show different texts. *)
Theorem card_points_as_in_stats_bar (data data' : CallEnd) :
  points_text (make_card data) = Board.pointsText (points data) +:+ " pts"
  /\ (points_class (make_card data) = "positive" <-> (0 <= points data)%Z)
  /\ (points_text (make_card data) = points_text (make_card data')
      -> points data = points data').
Proof.
  assert (E : forall d,
             points_text (make_card d) = Board.pointsText (points d) +:+ " pts").
  { intros d. cbn [make_card points_text]. unfold Board.pointsText.
    destruct (ge (points d) 0); reflexivity. }
  split; [apply E|]. split.
  - cbn [make_card points_class]. unfold ge.
    destruct (Z.leb_spec 0 (points data)); split; try discriminate;
      try reflexivity; lia.
  - rewrite !E. intros H. apply app_inj_r in H.
    now apply BoardFacts.pointsText_inj.
Qed.

End DisplayFacts.

(** ** More on the chat clients *)

Module SessionFacts.
Import JS Chat Reading.











Lemma stats_step (p : Part000.page) (i : Part000.input) :
  carries_stats i = false ->
  Part000.convertedCountEl (Part000.step p i) = Part000.convertedCountEl p
  /\ Part000.stayedCountEl (Part000.step p i) = Part000.stayedCountEl p
  /\ Part000.maybeCountEl (Part000.step p i) = Part000.maybeCountEl p.
Proof.
  intros H. destruct i as [| | |data| |]; cbn [Part000.step]; try (repeat split; fail).
  - destruct data as [n [st|]|speaker|speaker text|d|ty]; try discriminate;
      try (repeat split; fail).
    cbn in H. cbn [Part000.handleMessage]. unfold Part000.handleSessionEnd.
    destruct (end_stats d); [discriminate | repeat split].
  - destruct (Part000.startButton_disabled p); [repeat split|].
    unfold Part000.startNewSession. destruct (Part000.ws p) as [[]|]; repeat split.
Qed.

(** X18. The three outcome counters of the chat client change only with
    events that carry statistics: a run of inputs without a
    [session_start] or [session_end] carrying [stats] leaves them as they
    were. *)
Theorem counters_change_only_with_stats (p : Part000.page) (l : list Part000.input) :
  Forall (fun i => carries_stats i = false) l ->
  Part000.convertedCountEl (Part000.run p l) = Part000.convertedCountEl p
  /\ Part000.stayedCountEl (Part000.run p l) = Part000.stayedCountEl p
  /\ Part000.maybeCountEl (Part000.run p l) = Part000.maybeCountEl p.
Proof.
  revert p. induction l as [|i l IH]; intros p H; [repeat split|].
  apply Forall_cons in H as [Hi Hl].
  change (Part000.run p (i :: l)) with (Part000.run (Part000.step p i) l).
  destruct (IH (Part000.step p i) Hl) as (-> & -> & ->).
  now apply stats_step.
Qed.

Lemma counters_change_only_with_stats_witness :
  Forall (fun i => carries_stats i = false)
    [Part000.ws_onopen; Part000.click_startButton;
     Part000.ws_onmessage (session_start 1 None);
     Part000.ws_onmessage (message "android" "Hi");
     Part000.ws_onmessage (session_end (Sample.session_ended "maybe"))]
  /\ Part000.maybeCountEl
       (Part000.run Part000.loaded
          [Part000.ws_onopen; Part000.click_startButton;
           Part000.ws_onmessage (session_start 1 None);
           Part000.ws_onmessage (message "android" "Hi");
           Part000.ws_onmessage (session_end (Sample.session_ended "maybe"))])
     = Part000.maybeCountEl Part000.loaded.
Proof.
  assert (H : Forall (fun i => carries_stats i = false)
                [Part000.ws_onopen; Part000.click_startButton;
                 Part000.ws_onmessage (session_start 1 None);
                 Part000.ws_onmessage (message "android" "Hi");
                 Part000.ws_onmessage (session_end (Sample.session_ended "maybe"))])
    by (repeat constructor).
  split; [exact H|].
  exact (proj2 (proj2 (counters_change_only_with_stats Part000.loaded _ H))).
Defined.

Lemma session_ids_snoc (l : list Part000.input) (i : Part000.input) :
  session_ids (l ++ [i])
  = session_ids l ++ match i with
                     | Part000.ws_onmessage (session_start n _) => [n]
                     | _ => []
                     end.
Proof.
  unfold session_ids. rewrite omap_app. f_equal.
  destruct i as [| | |[]| |]; reflexivity.
Qed.

Lemma run_snoc (p : Part000.page) (l : list Part000.input) (i : Part000.input) :
  Part000.run p (l ++ [i]) = Part000.step (Part000.run p l) i.
Proof. unfold Part000.run. now rewrite fold_left_app. Qed.

(** X19. The session counter of the chat client follows the last
    [session_start]: after a run of inputs the script's [sessionCount] and
    the counter shown are the id of the last [session_start] of the run,
    and are as they were when the run has none; the divider a
    [session_start] appends names the same id. *)
Theorem session_counter_follows_last_start
  (p : Part000.page) (l : list Part000.input) (n : Z) (st : option Stats) :
  match last (session_ids l) with
  | Some k =>
      Part000.sessionCount (Part000.run p l) = k
      /\ Part000.sessionCountEl (Part000.run p l) = show k
  | None =>
      Part000.sessionCount (Part000.run p l) = Part000.sessionCount p
      /\ Part000.sessionCountEl (Part000.run p l) = Part000.sessionCountEl p
  end
  /\ last (Part000.chatMessages
             (Part000.step (Part000.run p l)
                (Part000.ws_onmessage (session_start n st))))
     = Some (session_divider ("Session " +:+ show n)).
Proof.
  split.
  - induction l as [|i l IH] using rev_ind; [repeat split|].
    rewrite session_ids_snoc, run_snoc.
    destruct i as [| | |[k s|sp|sp tx|d|ty]| |];
      rewrite ?app_nil_r; try exact IH.
    + rewrite last_snoc. destruct s; repeat split.
    + cbn [Part000.step Part000.handleMessage]. unfold Part000.handleSessionEnd.
      destruct (end_stats d); exact IH.
    + cbn [Part000.step]. destruct (Part000.startButton_disabled _); [exact IH|].
      unfold Part000.startNewSession.
      destruct (Part000.ws _) as [[]|]; exact IH.
  - cbn [Part000.step Part000.handleMessage]. unfold Part000.handleSessionStart.
    destruct st; cbn; apply last_snoc.
Qed.

End SessionFacts.

(** ** More on the second chat client *)

Module InsightsFacts.
Import JS Chat Reading.

Lemma step_agree (p : Part001.page) (i : Part001.input) :
  Part001.session_view (Part001.step p i)
  = match Part001.shared_input i with
    | Some j => Part000.step (Part001.session_view p) j
    | None => Part001.session_view p
    end.
Proof.
  destruct i as [| | |ev| | | | | | |b];
    cbn [Part001.shared_input Part001.step Part000.step]; try reflexivity.
  - apply VariantFacts.handleMessage_agree.
  - destruct p as [w n dis c1 c2 c3 c4 chat out act ins].
    destruct dis; [reflexivity|]. destruct w as [[]|]; reflexivity.
  - destruct b; reflexivity.
Qed.

(** X20. Over whole runs the second chat client is the first one: the
    session part of its page after any run of inputs is the page of the
    first client after the same run with the inputs of the insights modal
    left out. *)
Theorem runs_agree (p : Part001.page) (l : list Part001.input) :
  Part001.session_view (Part001.run p l)
  = Part000.run (Part001.session_view p) (omap Part001.shared_input l).
Proof.
  revert p. induction l as [|i l IH]; intros p; [reflexivity|].
  change (Part001.run p (i :: l)) with (Part001.run (Part001.step p i) l).
  rewrite IH, step_agree. cbn [omap list_omap].
  destruct (Part001.shared_input i); reflexivity.
Qed.

Lemma renderInsights_report (data : Part001.Insights) :
  truthy_num (Part001.total_sessions data) = true ->
  exists cards more,
    Part001.renderInsights data = Part001.report (Part001.grid "Overview" cards :: more)
    /\ length cards = 3 /\ length more <= 4
    /\ Part001.label <$> cards
       = ["Total Sessions"; "Conversion Rate"; "Prediction Accuracy"].
Proof.
  intros H. unfold Part001.renderInsights. rewrite H. cbn [negb].
  eexists _, _. split; [reflexivity|]. split; [reflexivity|]. split; [|reflexivity].
  rewrite !length_app.
  destruct (Part001.by_loyalty data) as [[|]|];
    destruct (Part001.pitch_effectiveness data) as [o|];
    try destruct (bool_decide (o = ∅));
    destruct (Part001.key_learnings data) as [[|]|];
    destruct (Part001.memory_summary data) as [[|]|]; cbn; lia.
Qed.

(** X21. [renderInsights] shows the no-sessions notice exactly when
    [total_sessions] is absent or 0, whatever else the answer holds;
    otherwise it shows a report that starts with the overview of three
    cards and has at most four more sections, one at most for each of the
    loyalty types, the pitch effectiveness, the learnings and the memory
    summary. *)
Theorem renderInsights_sections (data : Part001.Insights) :
  (Part001.renderInsights data = Part001.no_data
   <-> Part001.total_sessions data = None \/ Part001.total_sessions data = Some 0%Z)
  /\ (Part001.renderInsights data = Part001.no_data
      \/ exists cards more,
           Part001.renderInsights data
           = Part001.report (Part001.grid "Overview" cards :: more)
           /\ length cards = 3 /\ length more <= 4
           /\ Part001.label <$> cards
              = ["Total Sessions"; "Conversion Rate"; "Prediction Accuracy"]).
Proof.
  destruct (truthy_num (Part001.total_sessions data)) eqn:H.
  - destruct (renderInsights_report data H) as (cards & more & E & R).
    split; [|right; eauto]. rewrite E. split; [discriminate|].
    unfold truthy_num in H.
    intros [E0|E0]; rewrite E0 in H; discriminate.
  - assert (E : Part001.renderInsights data = Part001.no_data)
      by (unfold Part001.renderInsights; now rewrite H).
    split; [|now left]. split; [|now intros _].
    intros _. unfold truthy_num in H.
    destruct (Part001.total_sessions data) as [[|q|q]|]; try discriminate; auto.
Qed.

Lemma modal_run_snoc (p : Part001.page) (l : list Part001.input) (i : Part001.input) :
  Part001.run p (l ++ [i]) = Part001.step (Part001.run p l) i.
Proof. unfold Part001.run. now rewrite fold_left_app. Qed.

Lemma active_handleMessage (data : event) (p : Part001.page) :
  Part001.insightsModal_active (Part001.handleMessage data p)
  = Part001.insightsModal_active p.
Proof. apply VariantFacts.handleMessage_agree. Qed.

(** X22. The insights modal is opened only by its button and closed only
    by its close control or a click on its backdrop: after any run of
    inputs it is open exactly when the last of these clicks in the run was
    on the button (and is as it was when the run has none); neither an
    answer of the server, nor a failed request, nor any session event opens
    or closes it. *)
Theorem insights_modal_follows_clicks (p : Part001.page) (l : list Part001.input) :
  Part001.insightsModal_active (Part001.run p l)
  = default (Part001.insightsModal_active p) (last (omap modal_effect l)).
Proof.
  induction l as [|i l IH] using rev_ind; [reflexivity|].
  rewrite modal_run_snoc, omap_app.
  destruct i as [| | |ev| | | | | | |[]]; cbn [omap list_omap modal_effect];
    rewrite ?app_nil_r, ?last_snoc; try exact IH; try reflexivity.
  - cbn [Part001.step]. now rewrite active_handleMessage.
  - cbn [Part001.step].
    destruct (Part001.startButton_disabled _); [exact IH|].
    unfold Part001.startNewSession. destruct (Part001.ws _) as [[]|]; exact IH.
Qed.

End InsightsFacts.

(** ** The turn counter and the leaderboard modal of [static/script.js] *)

Module CounterFacts.
Import JS Script Reading.

Lemma script_run_snoc (p : page) (l : list input) (i : input) :
  run p (l ++ [i]) = step (run p l) i.
Proof. unfold run. now rewrite fold_left_app. Qed.

Lemma turnCount_step (p : page) (i : input) :
  turnCount (step p i) = default (turnCount p) (turn_written i).
Proof.
  destruct i as [| | |data| |]; try reflexivity.
  - destruct data as [d|speaker|speaker text b e t|d|d|ty]; try reflexivity.
    + cbn [step handleMessage turn_written].
      destruct t as [t|]; [|now StartFacts.handlers].
      cbn [truthy_num]. destruct (negb (t =? 0)%Z); [reflexivity|].
      now StartFacts.handlers.
    + cbn [step handleMessage turn_written]. unfold updateDashboard.
      destruct (turn d) as [t|]; [|reflexivity].
      cbn [truthy_num]. destruct (negb (t =? 0)%Z); reflexivity.
  - cbn. destruct (startButton_disabled p); [reflexivity|].
    unfold startNewCall. destruct (ws p) as [[]|]; reflexivity.
Qed.

(** X23. The turn counter shows the last turn written: after any run of
    inputs it shows "0" if the last writing input was a [call_start], the
    turn of the last [message] or [dashboard_update] that carried a turn
    other than 0 otherwise, and what it showed before when the run wrote
    none; an event with a turn of 0 or without a turn never changes it. *)
Theorem turn_counter_shows_last_turn (p : page) (l : list input) :
  turnCount (run p l) = default (turnCount p) (last (omap turn_written l)).
Proof.
  induction l as [|i l IH] using rev_ind; [reflexivity|].
  rewrite script_run_snoc, omap_app, turnCount_step. cbn [omap list_omap].
  destruct (turn_written i); rewrite ?app_nil_r, ?last_snoc; [reflexivity | exact IH].
Qed.

Lemma board_run_snoc (b : Board.board) (l : list Board.input) (i : Board.input) :
  Board.run b (l ++ [i]) = Board.step (Board.run b l) i.
Proof. unfold Board.run. now rewrite fold_left_app. Qed.

(** X24. The leaderboard modal is opened only by its button and closed
    only by its close control or a click on its backdrop: after any run of
    inputs it is open exactly when the last of these clicks was on the
    button; an answer or a failure of a request changes what the modal
    holds, never whether it is open, and the score counters change only
    with an answer to the request for the scores. *)
Theorem leaderboard_modal_follows_clicks
  (b : Board.board) (l : list Board.input) (i : Board.input) :
  Board.leaderboardModal_active (Board.run b l)
  = default (Board.leaderboardModal_active b) (last (omap board_modal_effect l))
  /\ match i with
     | Board.stats_response _ => True
     | _ => Board.points (Board.step b i) = Board.points b
     end.
Proof.
  split.
  - induction l as [|j l IH] using rev_ind; [reflexivity|].
    rewrite board_run_snoc, omap_app.
    destruct j as [lb|m| | | |d| | |[]]; cbn [omap list_omap board_modal_effect];
      rewrite ?app_nil_r, ?last_snoc; try exact IH; reflexivity.
  - destruct i as [lb|m| | | |d| | |[]]; try exact I; reflexivity.
Qed.

End CounterFacts.
